(** * Brain-age benchmark scripts: a shallow embedding and its properties

    The development covers the two Python sources of the repository:

    - [compute_benchmark_age_prediction.py], the benchmark driver: argument
      defaults, validation of the requested (dataset, benchmark) pairs,
      [load_benchmark_data], [run_benchmark_cv] and the final loop that
      writes one score table per pair;
    - [X_y_model.py], the deep-learning helpers: [create_windows_ds],
      [create_model], [create_model_and_data_split] and [get_X_y_model].

    Python exceptions are values of [exn]; a computation either returns or
    raises ([result]).  The driver also prints, reads files, calls
    scikit-learn and writes files: it runs in a writer monad [M] that logs
    each such step as an [event], in program order.  Third-party libraries
    (pandas, numpy, h5io, scikit-learn, mne, torch, braindecode) are not part
    of the repository: what they return is taken from a record of oracles
    ([World], [Lib]), and each oracle may fail. *)

From Stdlib Require Import ZArith List String Bool Lia PrimFloat.
From stdpp Require Import base option list gmap strings pretty.

Set Warnings "-inexact-float,-register-all".
Open Scope string_scope.

(** ** Exceptions and results *)

Inductive exn : Type :=
| ValueError (msg : string)
| KeyError (key : string)
| IndexError (msg : string)
| NotImplementedError (msg : string)
| AssertionError
| UnboundLocalError (name : string)
| LibraryError (what : string).

Inductive result (A : Type) : Type :=
| Ok (a : A)
| Raise (e : exn).
Arguments Ok {A} a.
Arguments Raise {A} e.

(** What a call into a third-party library gives back: a value, or a failure
    described by the library.  A failure surfaces as [LibraryError], whatever
    the class of the Python exception (a parser error of pandas, say, is a
    [ValueError] in Python): [LibraryError] reads "raised inside a library",
    and the other constructors of [exn] are the exceptions of the scripts'
    own statements. *)
Inductive io (A : Type) : Type :=
| Returned (a : A)
| Failed (what : string).
Arguments Returned {A} a.
Arguments Failed {A} what.

Definition of_io {A} (r : io A) : result A :=
  match r with
  | Returned a => Ok a
  | Failed what => Raise (LibraryError what)
  end.

#[global] Instance result_ret : MRet result := fun _ a => Ok a.
#[global] Instance result_bind : MBind result := fun _ _ f r =>
  match r with
  | Ok a => f a
  | Raise e => Raise e
  end.

(** A list comprehension whose body may raise: the first exception wins. *)
Fixpoint comprehension {A B} (f : A -> result B) (l : list A) : result (list B) :=
  match l with
  | [] => Ok []
  | a :: l' =>
      match f a with
      | Ok b =>
          match comprehension f l' with
          | Ok bs => Ok (b :: bs)
          | Raise e => Raise e
          end
      | Raise e => Raise e
      end
  end.

(** [d[key]] on a dict kept as an ordered list of items. *)
Fixpoint getitem {V} (d : list (string * V)) (key : string) : result V :=
  match d with
  | [] => Raise (KeyError key)
  | (k, v) :: d' => if decide (k = key) then Ok v else getitem d' key
  end.

(** ** Python and library values *)

Inductive pynum : Type :=
| PyInt (z : Z)
| PyFloat (f : float).

Inductive ndarray : Type :=
| NdArray (shape : list nat) (data : list float).

(** What an HDF5 feature file holds per subject: an array, or a dict. *)
Inductive pyobj : Type :=
| PArray (a : ndarray)
| PDict (items : list (string * pyobj)).

(** [obj[key]] for a string key: only a dict can be indexed that way. *)
Definition subscript (obj : pyobj) (key : string) : result pyobj :=
  match obj with
  | PDict items => getitem items key
  | PArray _ => Raise (IndexError "only integers, slices are valid indices")
  end.

Record ParamGrid : Type := {
  max_depth : list (option Z);
  max_features : list (option string)
}.

Inductive Estimator : Type :=
| FilterBankTransformer (names : list string) (method : string)
    (projection_params : option (string * Z))
| StandardScaler
| RidgeCV (logspace_start logspace_stop logspace_num : Z)
| RandomForestRegressor (n_estimators random_state : Z)
| GridSearchCV (estimator : Estimator) (param_grid : ParamGrid)
    (scoring : string) (iid : bool) (cv : Z)
| FunctionTransformer (func : string) (kw_args : list (string * string))
| SimpleImputer
| DummyRegressor (strategy : string)
| Pipeline (steps : list Estimator).

Inductive XData : Type :=
| XFrame (columns : list (string * list ndarray))
| XList (rows : list pyobj)
| XZeros (rows cols : nat).

Record KFold : Type := {
  n_splits : Z;
  shuffle : bool;
  random_state : option Z
}.

(** The dict [cross_validate] returns for [scoring=['neg_mean_absolute_error',
    'r2']]: one array per key, one entry per fold. *)
Record Scores : Type := {
  fit_time : list float;
  score_time : list float;
  test_neg_mean_absolute_error : list float;
  test_r2 : list float
}.

(** A data frame of floats: its columns, in order. *)
Definition DataFrame : Type := list (string * list float).


Definition column (df : DataFrame) (name : string) : result (list float) :=
  getitem df name.

(** A per-dataset configuration module ([config_chbp_eeg] and the like);
    these modules are not part of the sources at hand. *)
Record Config : Type := {
  bids_root : string;
  deriv_root : string;
  task : string;
  analyze_channels : list string
}.

(** [root / name] on paths. *)
Definition path_join (root name : string) : string := root ++ "/" ++ name.

(** ** Events and the driver's monad *)

(** A piece of a printed f-string: literal text, or the mean of a column
    (whose decimal rendering is left to Python). *)
Inductive fpart : Type :=
| Lit (s : string)
| MeanOf (values : list float).

Inductive event : Type :=
| EPrint (parts : list fpart)
| EImport (module : string)
| EReadCsv (path : string)
| EReadHdf5 (path : string)
| ECrossValidate (model : option Estimator) (X : option XData)
    (y : option (list float)) (cv : KFold) (scoring : list string)
    (n_jobs : Z)
| EToCsv (path : string) (df : DataFrame).

(** Events logged so far, and the outcome. *)
Definition M (A : Type) : Type := list event * result A.

#[global] Instance M_ret : MRet M := fun _ a => ([], Ok a).
#[global] Instance M_bind : MBind M := fun _ _ f m =>
  match m with
  | (tr, Ok a) => let '(tr', r) := f a in ((tr ++ tr')%list, r)
  | (tr, Raise e) => (tr, Raise e)
  end.

Definition emit (e : event) : M unit := ([e], Ok tt).
Definition raise {A} (e : exn) : M A := ([], Raise e).
Definition lift {A} (r : result A) : M A := ([], r).
Definition print (parts : list fpart) : M unit := emit (EPrint parts).

(** A call into a library: logged, then its outcome. *)
Definition call {A} (e : event) (r : io A) : M A := ([e], of_io r).

(** A [for] loop whose body may raise. *)
Fixpoint for_each {A} (body : A -> M unit) (l : list A) : M unit :=
  match l with
  | [] => mret tt
  | a :: l' => body a ≫= fun _ => for_each body l'
  end.

(** ** The outside world of the driver *)

Record World : Type := {
  (** [importlib.import_module(name)] *)
  import_module : string -> io Config;
  (** [pd.read_csv(path, sep='\t').set_index('participant_id')], kept as
      the (participant_id, age) rows *)
  read_participants : string -> io (list (string * float));
  (** [pd.read_csv(path).query('ok == "OK"').subject] *)
  read_ok_subjects : string -> io (list string);
  (** [mne.externals.h5io.read_hdf5(path)] *)
  read_hdf5 : string -> io (list (string * pyobj));
  (** [np.array(objs)] *)
  np_array : list pyobj -> io ndarray;
  (** [list(arr[:, ii])] *)
  slice_axis1 : ndarray -> nat -> io (list ndarray);
  (** [sklearn.model_selection.cross_validate] *)
  cross_validate :
    option Estimator -> option XData -> option (list float) -> KFold ->
    list string -> Z -> io Scores;
  (** [DataFrame.to_csv(path)] *)
  to_csv : string -> DataFrame -> io unit
}.

(** ** compute_benchmark_age_prediction.py *)

Definition DATASETS : list string := ["chbp"; "lemon"; "tuab"; "camcan"].
Definition BENCHMARKS : list string :=
  ["dummy"; "filterbank-riemann"; "filterbank-source"; "handcrafted"].

(** The namespace [parser.parse_args()] returns. *)
Record Args : Type := {
  dataset : option (list string);
  benchmark : option (list string);
  n_jobs : Z
}.

Definition datasets_of (parsed : Args) : list string :=
  match dataset parsed with
  | None => DATASETS
  | Some l => l
  end.

Definition benchmarks_of (parsed : Args) : list string :=
  match benchmark parsed with
  | None => BENCHMARKS
  | Some l => l
  end.

(** [[(ds, bs) for ds in datasets for bs in benchmarks]] *)
Definition tasks_of (datasets benchmarks : list string) : list (string * string) :=
  flat_map (fun ds => map (fun bs => (ds, bs)) benchmarks) datasets.

Definition check_task (t : string * string) : result unit :=
  let '(dataset, benchmark) := t in
  if decide (dataset ∈ DATASETS) then
    if decide (benchmark ∈ BENCHMARKS) then Ok tt
    else Raise (ValueError ("The benchmark '" ++ benchmark ++ "' passed is unkonwn"))
  else Raise (ValueError ("The dataset '" ++ dataset ++ "' passed is unkonwn")).

(** The validation loop over [tasks]. *)
Fixpoint validate (tasks : list (string * string)) : result unit :=
  match tasks with
  | [] => Ok tt
  | t :: tasks' =>
      match check_task t with
      | Ok _ => validate tasks'
      | Raise e => Raise e
      end
  end.

Definition config_map : gmap string string :=
  <["chbp" := "config_chbp_eeg"]>
  (<["lemon" := "config_lemon_eeg"]>
  (<["tuab" := "config_tuab"]>
  (<["camcan" := "config_camcan_meg"]> ∅))).

(** One entry of [bench_config]: a dict in which either key may be absent. *)
Record BenchCfg : Type := {
  frequency_bands : option (list (string * (pynum * pynum)));
  feature_map : option string
}.

(** [d[key]] for a key of a benchmark entry. *)
Definition cfg_item {A} (v : option A) (key : string) : result A :=
  match v with
  | Some a => Ok a
  | None => Raise (KeyError key)
  end.

Definition bench_config : gmap string BenchCfg :=
  <["filterbank-riemann" :=
      {| frequency_bands := Some
           [("low", (PyFloat 0.1, PyInt 1));
            ("delta", (PyInt 1, PyInt 4));
            ("theta", (PyFloat 4.0, PyFloat 8.0));
            ("alpha", (PyFloat 8.0, PyFloat 15.0));
            ("beta_low", (PyFloat 15.0, PyFloat 26.0));
            ("beta_mid", (PyFloat 26.0, PyFloat 35.0));
            ("beta_high", (PyFloat 35.0, PyInt 49))];
         feature_map := Some "fb_covs" |}]>
  (<["filterbank-source" :=
      {| frequency_bands := None; feature_map := Some "source_power" |}]>
  (<["handcrafted" :=
      {| frequency_bands := None; feature_map := Some "handcrafted" |}]> ∅)).

Definition aggregate_features_name : string := "aggregate_features".

(** [df_subjects.loc[good_subjects]]: for each listed subject in turn, every
    row that carries its label; a label that is not in the index is a
    [KeyError] (pandas names the missing labels in its message; the first of
    them stands for it here). *)
Definition loc (df_subjects : list (string * float)) (good_subjects : list string)
  : result (list (string * float)) :=
  rows ← comprehension
           (fun sub =>
              match filter (fun row : string * float => row.1 = sub) df_subjects with
              | [] => Raise (KeyError sub)
              | row :: rows => Ok (row :: rows)
              end)
           good_subjects;
  Ok (concat rows).

(** [df_subjects.index] and [df_subjects.age.values] *)
Definition index_of (df_subjects : list (string * float)) : list string :=
  map fst df_subjects.
Definition age_values (df_subjects : list (string * float)) : list float :=
  map snd df_subjects.

(** A local name that is bound only on some paths. *)
Definition bound {A} (name : string) (v : option A) : result A :=
  match v with
  | Some a => Ok a
  | None => Raise (UnboundLocalError name)
  end.

(** The data frame [{band: list(arr[:, ii]) for ii, band in
    enumerate(frequency_bands)}]. *)
Definition band_columns (w : World) (arr : ndarray)
  : nat -> list string -> result (list (string * list ndarray)) :=
  fix columns_from (ii : nat) (bands : list string) :=
    match bands with
    | [] => Ok []
    | band :: bands' =>
        col ← of_io (slice_axis1 w arr ii);
        rest ← columns_from (S ii) bands';
        Ok ((band, col) :: rest)
    end.

Definition load_benchmark_data (w : World) (dataset benchmark : string)
    (condition : option string)
  : M (option XData * option (list float) * option Estimator) :=
  match config_map !! dataset with
  | None =>
      raise (ValueError ("We don't know the dataset '" ++ dataset ++ "' you requested."))
  | Some config_name =>
      cfg ← call (EImport config_name) (import_module w config_name);
      let condition_ :=
        match condition with
        | None => if decide (dataset ∈ ["chbp"; "lemon"]) then "pooled" else "rest"
        | Some c => c
        end in
      let participants := path_join (bids_root cfg) "participants.tsv" in
      df_subjects ← call (EReadCsv participants) (read_participants w participants);
      (* the names bound under [if benchmark != 'dummy'] *)
      '(df_subjects, bench_cfg, feature_label) ←
        (if decide (benchmark ≠ "dummy") then
           bench_cfg ← lift (cfg_item (bench_config !! benchmark) benchmark);
           feature_label ← lift (cfg_item (feature_map bench_cfg) "feature_map");
           let feature_log :=
             "feature_" ++ feature_label ++ "_" ++ condition_ ++ "-log.csv" in
           let log_path := path_join (deriv_root cfg) feature_log in
           good_subjects ← call (EReadCsv log_path) (read_ok_subjects w log_path);
           df_subjects ← lift (loc df_subjects good_subjects);
           print [Lit ("Found data from " ++ pretty (length good_subjects)
                       ++ " subjects")];;
           mret (df_subjects, Some bench_cfg, Some feature_label)
         else mret (df_subjects, None, None));
      if decide (benchmark = "filterbank-riemann") then
        bench_cfg ← lift (bound "bench_cfg" bench_cfg);
        frequency_bands ← lift (cfg_item (frequency_bands bench_cfg) "frequency_bands");
        feature_label ← lift (bound "feature_label" feature_label);
        let h5 := path_join (deriv_root cfg)
                    ("features_" ++ feature_label ++ "_" ++ condition_ ++ ".h5") in
        features ← call (EReadHdf5 h5) (read_hdf5 w h5);
        covs ← lift (comprehension
                       (fun sub => getitem features sub ≫= fun f => subscript f "covs")
                       (index_of df_subjects));
        covs ← lift (of_io (np_array w covs));
        X ← lift (band_columns w covs 0 (map fst frequency_bands));
        let y := age_values df_subjects in
        let rank :=
          if decide (dataset = "camcan") then 65%Z
          else (Z.of_nat (length (analyze_channels cfg)) - 1)%Z in
        let filter_bank_transformer :=
          FilterBankTransformer (map fst frequency_bands) "riemann"
            (Some ("auto", rank)) in
        let model :=
          Pipeline [filter_bank_transformer; StandardScaler; RidgeCV (-5) 10 100] in
        mret (Some (XFrame X), Some y, Some model)
      else if decide (benchmark = "filterbank-source") then
        bench_cfg ← lift (bound "bench_cfg" bench_cfg);
        frequency_bands ← lift (cfg_item (frequency_bands bench_cfg) "frequency_bands");
        feature_label ← lift (bound "feature_label" feature_label);
        let h5 := path_join (deriv_root cfg)
                    ("features_" ++ feature_label ++ "_" ++ condition_ ++ ".h5") in
        features ← call (EReadHdf5 h5) (read_hdf5 w h5);
        source_power ← lift (comprehension (getitem features) (index_of df_subjects));
        source_power ← lift (of_io (np_array w source_power));
        X ← lift (band_columns w source_power 0 (map fst frequency_bands));
        let y := age_values df_subjects in
        (* [filter_bank_transformer] is built and dropped; [model] keeps the
           [None] it was initialised with *)
        let filter_bank_transformer :=
          FilterBankTransformer (map fst frequency_bands) "log_diag" None in
        mret (Some (XFrame X), Some y, None)
      else if decide (benchmark = "handcrafted") then
        let h5 := path_join (deriv_root cfg)
                    ("features_handcrafted_" ++ condition_ ++ ".h5") in
        features ← call (EReadHdf5 h5) (read_hdf5 w h5);
        X ← lift (comprehension
                    (fun sub => getitem features sub ≫= fun f => subscript f "feats")
                    (index_of df_subjects));
        let y := age_values df_subjects in
        let param_grid :=
          {| max_depth := [Some 4; Some 6; Some 8; Some 16; Some 32; None]%Z;
             max_features := [Some "log2"; Some "sqrt"; None] |} in
        let rf_reg :=
          GridSearchCV (RandomForestRegressor 1000 42) param_grid
            "neg_mean_absolute_error" false 5 in
        let model :=
          Pipeline [FunctionTransformer aggregate_features_name [("func", "mean")];
                    SimpleImputer; rf_reg] in
        mret (Some (XList X), Some y, Some model)
      else if decide (benchmark = "dummy") then
        let y := age_values df_subjects in
        let X := XZeros (length y) 1 in
        let model := DummyRegressor "mean" in
        mret (Some X, Some y, Some model)
      else if decide (benchmark = "deep") then
        raise (NotImplementedError "not yet available")
      else mret (None, None, None)
  end.

Definition metrics : list string := ["neg_mean_absolute_error"; "r2"].

Definition results_frame (scores : Scores) : DataFrame :=
  [("MAE", map (fun s => PrimFloat.mul s (-1)%float) (test_neg_mean_absolute_error scores));
   ("r2", test_r2 scores);
   ("fit_time", fit_time scores);
   ("score_time", score_time scores)].

(** [print(f'{metric}({benchmark}, {dataset}) = {results[metric].mean()}')] *)
Definition report (results : DataFrame) (benchmark dataset metric : string) : M unit :=
  col ← lift (column results metric);
  print [Lit (metric ++ "(" ++ benchmark ++ ", " ++ dataset ++ ") = "); MeanOf col].

Definition run_benchmark_cv (w : World) (N_JOBS : Z) (benchmark dataset : string)
  : M DataFrame :=
  '(X, y, model) ← load_benchmark_data w dataset benchmark None;
  let cv := {| n_splits := 10; shuffle := true; random_state := Some 42%Z |} in
  scores ← call (ECrossValidate model X y cv metrics N_JOBS)
                (cross_validate w model X y cv metrics N_JOBS);
  let results := results_frame scores in
  for_each (report results benchmark dataset) ["MAE"; "r2"];;
  mret results.

Definition results_path (benchmark dataset : string) : string :=
  "./results/benchmark-" ++ benchmark ++ "_dataset-" ++ dataset ++ ".csv".

(** One iteration of the closing loop. *)
Definition run_task (w : World) (N_JOBS : Z) (t : string * string) : M unit :=
  let '(dataset, benchmark) := t in
  print [Lit ("Now running '" ++ benchmark ++ "' on '" ++ dataset ++ "' data")];;
  results_df ← run_benchmark_cv w N_JOBS benchmark dataset;
  let path := results_path benchmark dataset in
  lift (of_io (to_csv w path results_df));;
  emit (EToCsv path results_df).

(** [', '.join(names)] *)
Definition join_comma (names : list string) : string := String.concat ", " names.

(** The script, from the parsed arguments on. *)
Definition main (w : World) (parsed : Args) : M unit :=
  let datasets := datasets_of parsed in
  let benchmarks := benchmarks_of parsed in
  let N_JOBS := n_jobs parsed in
  let tasks := tasks_of datasets benchmarks in
  lift (validate tasks);;
  print [Lit ("Running benchmarks: " ++ join_comma benchmarks)];;
  print [Lit ("Datasets: " ++ join_comma datasets)];;
  for_each (run_task w N_JOBS) tasks.

(** The numpy functions [aggregate_features] calls. *)
Record Numpy : Type := {
  (** [np.nanmean(x, axis=axis, keepdims=True)] *)
  nanmean : ndarray -> Z -> io ndarray;
  (** [np.nanmedian(x, axis=axis, keepdims=True)] *)
  nanmedian : ndarray -> Z -> io ndarray;
  (** [np.vstack(rows)] *)
  vstack : list ndarray -> io ndarray
}.

Definition default_func : string := "mean".
Definition default_axis : Z := 0.

(** [aggregate_features(X, func, axis)]: [aggs[func]] is looked up anew for
    each element of [X], inside the comprehension. *)
Definition aggregate_features (np : Numpy) (X : list ndarray) (func : string)
    (axis : Z) : result ndarray :=
  let aggs := [("mean", nanmean np); ("median", nanmedian np)] in
  rows ← comprehension
           (fun x => getitem aggs func ≫= fun agg => of_io (agg x axis)) X;
  of_io (vstack np rows).

(** ** X_y_model.py *)

Module X_y_model.

(** An [mne.Epochs] object, as far as the helpers look at it. *)
Record Epochs : Type := {
  (** [len(e)] *)
  epochs_len : nat;
  (** [e.events[:, -1]] *)
  events_description : list Z;
  (** [e.get_data(item=0).shape[-1]] and [.shape[-2]] *)
  n_times : Z;
  n_chans : Z
}.

Inductive WindowsDataset : Type :=
| create_from_mne_epochs (list_of_epochs : list Epochs)
    (window_size_samples window_stride_samples : Z) (drop_last_window : bool)
| split_by (ds : WindowsDataset) (ids : list nat).

Inductive Net : Type :=
| ShallowFBCSPNet (in_chans n_classes input_window_samples : Z)
    (final_conv_length : string)
| Deep4Net (in_chans n_classes input_window_samples : Z)
    (final_conv_length : string).

Inductive nn_module : Type :=
| NnModule (descr : string).

Record Sequential : Type := {
  children : list (string * nn_module);
  on_cuda : bool
}.

Inductive Callback : Type :=
| BatchScoring (scoring : string) (lower_is_better : bool)
| LRScheduler (policy : string) (T_max : Z).

Record EEGRegressor : Type := {
  module_ : Sequential;
  criterion : string;
  optimizer : string;
  (** the set handed to [predefined_split] *)
  train_split : WindowsDataset;
  optimizer__lr : float;
  optimizer__weight_decay : pynum;
  batch_size_ : Z;
  callbacks : list (string * Callback);
  device : string
}.

(** What a generator does when it is advanced: it is exhausted, it yields,
    or it raises. *)
Inductive gen (A : Type) : Type :=
| GStop
| GYield (a : A) (rest : gen A)
| GRaise (what : string).
Arguments GStop {A}.
Arguments GYield {A} a rest.
Arguments GRaise {A} what.

Fixpoint gen_of_list {A} (l : list A) : gen A :=
  match l with
  | [] => GStop
  | a :: l' => GYield a (gen_of_list l')
  end.

Definition Split : Type := list nat * list nat.

(** A cross-validation object: its [split] method. *)
Definition CV : Type := list nat -> gen Split.

Record Lib : Type := {
  (** [mne.read_epochs(fname, preload=False)] *)
  read_epochs : string -> io Epochs;
  (** [torch.cuda.is_available()] *)
  cuda_is_available : bool;
  (** [set_random_seeds(seed=seed, cuda=cuda)] *)
  set_random_seeds : Z -> bool -> io unit;
  (** building a braindecode network and listing [named_children()] *)
  named_children : Net -> io (list (string * nn_module));
  (** [len(windows_ds)] *)
  len_ds : WindowsDataset -> nat
}.

(** [assert cond] *)
Definition assert (cond : bool) : result unit :=
  if cond then Ok tt else Raise AssertionError.

(** [l[i]] *)
Definition index {A} (l : list A) (i : nat) : result A :=
  match l !! i with
  | Some a => Ok a
  | None => Raise (IndexError "list index out of range")
  end.

(** [len(set(l))] *)
Definition len_set (l : list Z) : nat := size (list_to_set l : gset Z).

(** The loop [for i in range(len(epochs)): epochs[i].events[:, -1] =
    len(epochs[i]) * [ages[i]]], from index [i] on. *)
Fixpoint insert_ages (epochs : list Epochs) (ages : list Z) (i : nat)
  : result (list Epochs) :=
  match epochs with
  | [] => Ok []
  | e :: epochs' =>
      age ← index ages i;
      rest ← insert_ages epochs' ages (S i);
      Ok ({| epochs_len := epochs_len e;
             events_description := replicate (epochs_len e) age;
             n_times := n_times e;
             n_chans := n_chans e |} :: rest)
  end.

Definition create_windows_ds (lib : Lib) (fnames : list string) (ages : list Z)
  : result (WindowsDataset * Z * Z) :=
  epochs ← comprehension (fun fname => of_io (read_epochs lib fname)) fnames;
  assert (bool_decide (length epochs = length ages));;
  epochs ← insert_ages epochs ages 0;
  let window_sizes := map n_times epochs in
  assert (bool_decide (len_set window_sizes = 1));;
  let n_channels := map n_chans epochs in
  assert (bool_decide (len_set n_channels = 1));;
  w0 ← index window_sizes 0;
  let windows_ds := create_from_mne_epochs epochs w0 w0 false in
  c0 ← index n_channels 0;
  Ok (windows_ds, w0, c0).

(** [needle in hay] on strings. *)
Fixpoint contains (needle hay : string) : bool :=
  String.prefix needle hay ||
  match hay with
  | EmptyString => false
  | String _ hay' => contains needle hay'
  end.

(** The cuDNN switch at the head of [create_model] and the seeding act on
    torch's global state, which none of the helpers reads back; the seeding
    can fail (numpy turns down a seed outside its range), and does so before
    the model name is looked at.  The move to the GPU is kept as the
    [on_cuda] flag of the result. *)
Definition create_model (lib : Lib) (model_name : string)
    (window_size n_channels seed : Z)
  : result (Sequential * float * pynum) :=
  let cuda := cuda_is_available lib in
  of_io (set_random_seeds lib seed cuda);;
  '(model, lr, weight_decay) ←
    (if decide (model_name = "shallow") then
       model ← of_io (named_children lib
                        (ShallowFBCSPNet n_channels 1 window_size "auto"));
       Ok (model, PrimFloat.mul 0.0625 0.01, PyInt 0)
     else
       assert (bool_decide (model_name = "deep"));;
       model ← of_io (named_children lib
                        (Deep4Net n_channels 1 window_size "auto"));
       Ok (model, PrimFloat.mul 1 0.01, PyFloat (PrimFloat.mul 0.5 0.001)));
  let new_model :=
    filter (fun nm => negb (contains "softmax" nm.1)) model in
  Ok ({| children := new_model; on_cuda := cuda |}, lr, weight_decay).

(** The loop [for fold_i, (train_is, valid_is) in enumerate(...): if
    fold_i == fold: break]: the pair the two names are bound to when the
    loop is left, if any. *)
Fixpoint scan_folds (g : gen Split) (fold : Z) (fold_i : nat)
    (last_seen : option Split) : result (option Split) :=
  match g with
  | GStop => Ok last_seen
  | GRaise what => Raise (LibraryError what)
  | GYield s rest =>
      if decide (Z.of_nat fold_i = fold) then Ok (Some s)
      else scan_folds rest fold (S fold_i) (Some s)
  end.

Definition create_model_and_data_split (lib : Lib) (model_name : string)
    (windows_ds : WindowsDataset) (n_channels window_size n_epochs : Z)
    (cv : CV) (fold seed batch_size : Z)
  : result (WindowsDataset * option (list float) * EEGRegressor) :=
  '(model, lr, weight_decay) ← create_model lib model_name window_size n_channels seed;
  let example_ids := seq 0 (len_ds lib windows_ds) in
  bound_to ← scan_folds (cv example_ids) fold 0 None;
  '(train_is, valid_is) ← bound "train_is" bound_to;
  let train_set := split_by windows_ds train_is in
  let valid_set := split_by windows_ds valid_is in
  let clf :=
    {| module_ := model;
       criterion := "L1Loss";
       optimizer := "AdamW";
       train_split := valid_set;
       optimizer__lr := lr;
       optimizer__weight_decay := weight_decay;
       batch_size_ := batch_size;
       callbacks :=
         [("R2", BatchScoring "r2" false);
          ("lr_scheduler", LRScheduler "CosineAnnealingLR" (n_epochs - 1))];
       device := if cuda_is_available lib then "cuda" else "cpu" |} in
  Ok (train_set, None, clf).

Definition default_n_epochs : Z := 35.
Definition default_batch_size : Z := 64.
Definition default_seed : Z := 20211011.

(** [create_windows_ds] returns (dataset, window size, channel count); the
    caller binds the last two as [n_channels, window_size]. *)
Definition get_X_y_model (lib : Lib) (fnames : list string) (model_name : string)
    (age : list Z) (cv : CV) (fold n_epochs batch_size seed : Z)
  : result (WindowsDataset * option (list float) * EEGRegressor) :=
  '(windows_ds, n_channels, window_size) ← create_windows_ds lib fnames age;
  create_model_and_data_split lib model_name windows_ds n_channels window_size
    n_epochs cv fold seed batch_size.

End X_y_model.

(** ** Sample inputs, used to run the definitions *)

Definition sample_config : Config :=
  {| bids_root := "/data/bids";
     deriv_root := "/data/derivatives";
     task := "rest";
     analyze_channels := ["Fz"; "Cz"; "Pz"] |}.

Definition sample_array : ndarray := NdArray [2; 2] [1; 0; 0; 1]%float.

Definition sample_features : list (string * pyobj) :=
  [("sub-01", PDict [("covs", PArray sample_array); ("feats", PArray sample_array)]);
   ("sub-02", PDict [("covs", PArray sample_array); ("feats", PArray sample_array)])].

Definition sample_scores : Scores :=
  {| fit_time := [0.5; 0.25]%float;
     score_time := [0.125; 0.125]%float;
     test_neg_mean_absolute_error := [-8; -7.5]%float;
     test_r2 := [0.5; 0.25]%float |}.

Definition sample_world : World :=
  {| import_module := fun _ => Returned sample_config;
     read_participants := fun _ => Returned [("sub-01", 25%float); ("sub-02", 61%float)];
     read_ok_subjects := fun _ => Returned ["sub-01"; "sub-02"];
     read_hdf5 := fun _ => Returned sample_features;
     np_array := fun _ => Returned sample_array;
     slice_axis1 := fun _ _ => Returned [sample_array; sample_array];
     cross_validate := fun _ _ _ _ _ _ => Returned sample_scores;
     to_csv := fun _ _ => Returned tt |}.

(** A world in which the two subjects have different features and the
    processing log lists them in the other order. *)
Definition sample_world_other_order : World :=
  {| import_module := fun _ => Returned sample_config;
     read_participants := fun _ => Returned [("sub-01", 25%float); ("sub-02", 61%float)];
     read_ok_subjects := fun _ => Returned ["sub-02"; "sub-01"];
     read_hdf5 := fun _ =>
       Returned [("sub-01", PDict [("feats", PArray (NdArray [1] [1]%float))]);
                 ("sub-02", PDict [("feats", PArray (NdArray [1] [2]%float))])];
     np_array := fun _ => Returned sample_array;
     slice_axis1 := fun _ _ => Returned [sample_array; sample_array];
     cross_validate := fun _ _ _ _ _ _ => Returned sample_scores;
     to_csv := fun _ _ => Returned tt |}.

Definition sample_args (ds bs : option (list string)) : Args :=
  {| dataset := ds; benchmark := bs; n_jobs := 1 |}.

(** A world in which [cross_validate] turns down [n_jobs=0], as joblib
    does, and arguments that ask for [n] jobs. *)
Definition sample_world_checking_n_jobs : World :=
  {| import_module := import_module sample_world;
     read_participants := read_participants sample_world;
     read_ok_subjects := read_ok_subjects sample_world;
     read_hdf5 := read_hdf5 sample_world;
     np_array := np_array sample_world;
     slice_axis1 := slice_axis1 sample_world;
     cross_validate := fun _ _ _ _ _ n_jobs =>
       if decide (n_jobs = 0%Z)
       then Failed "n_jobs == 0 in Parallel has no meaning"
       else Returned sample_scores;
     to_csv := to_csv sample_world |}.

Definition sample_args_n_jobs (n : Z) : Args :=
  {| dataset := Some ["chbp"]; benchmark := Some ["dummy"]; n_jobs := n |}.

(** A stand-in for scikit-learn's [KFold.split], to run statements about
    splitters on: sample [i] goes to the test side of fold
    [(i + offset) mod n_splits], where the offset is the seed when shuffling
    with a [random_state], the state of the global generator when shuffling
    without one, and 0 without shuffling. *)
Definition sample_kfold_split (cv : KFold) (global_state : Z) (n_samples : nat)
  : list (list nat * list nat) :=
  let offset :=
    if shuffle cv then
      match random_state cv with Some seed => seed | None => global_state end
    else 0%Z in
  let fold_of (i : nat) : Z := ((Z.of_nat i + offset) `mod` n_splits cv)%Z in
  map (fun k : nat =>
         (filter (fun i => fold_of i ≠ Z.of_nat k) (seq 0 n_samples),
          filter (fun i => fold_of i = Z.of_nat k) (seq 0 n_samples)))
      (seq 0 (Z.to_nat (n_splits cv))).

(** Sample inputs for the helpers of X_y_model.py. *)
Definition sample_epochs : X_y_model.Epochs :=
  {| X_y_model.epochs_len := 3;
     X_y_model.events_description := [1; 1; 1]%Z;
     X_y_model.n_times := 2000;
     X_y_model.n_chans := 21 |}.

Definition sample_children : list (string * X_y_model.nn_module) :=
  [("ensuredims", X_y_model.NnModule "Ensure4d");
   ("conv_time", X_y_model.NnModule "Conv2d");
   ("conv_classifier", X_y_model.NnModule "Conv2d");
   ("softmax", X_y_model.NnModule "LogSoftmax");
   ("squeeze", X_y_model.NnModule "Expression")].

(** Seeding as numpy has it: a seed outside [0, 2**32 - 1] is turned down. *)
Definition sample_set_random_seeds (seed : Z) (cuda : bool) : io unit :=
  if decide (0 ≤ seed < 2 ^ 32)%Z then Returned tt
  else Failed "Seed must be between 0 and 2**32 - 1".

Definition sample_lib : X_y_model.Lib :=
  {| X_y_model.read_epochs := fun _ => Returned sample_epochs;
     X_y_model.cuda_is_available := false;
     X_y_model.set_random_seeds := sample_set_random_seeds;
     X_y_model.named_children := fun _ => Returned sample_children;
     X_y_model.len_ds := fun _ => 6 |}.

(** A splitter that yields the given folds, and one that yields none. *)
Definition sample_cv (folds : list X_y_model.Split) : X_y_model.CV :=
  fun _ => X_y_model.gen_of_list folds.

Definition sample_folds : list X_y_model.Split :=
  [([2; 3; 4; 5], [0; 1]); ([0; 1; 4; 5], [2; 3]); ([0; 1; 2; 3], [4; 5])].

(** A library in which one epochs file cannot be read. *)
Definition sample_lib_missing_file : X_y_model.Lib :=
  {| X_y_model.read_epochs := fun fname =>
       if decide (fname = "sub-02-epo.fif") then Failed "No such file"
       else Returned sample_epochs;
     X_y_model.cuda_is_available := false;
     X_y_model.set_random_seeds := sample_set_random_seeds;
     X_y_model.named_children := fun _ => Returned sample_children;
     X_y_model.len_ds := fun _ => 6 |}.

Definition sample_numpy : Numpy :=
  {| nanmean := fun x _ => Returned x;
     nanmedian := fun x _ => Returned x;
     vstack := fun rows =>
       match rows with
       | [] => Failed "need at least one array to concatenate"
       | x :: _ => Returned x
       end |}.

(** ** Vocabulary of the statements *)

Definition trace {A} (m : M A) : list event := m.1.
Definition outcome {A} (m : M A) : result A := m.2.

(** Every logged event satisfies [P], and every exception raised [Q]. *)
Definition within (P : event -> Prop) (Q : exn -> Prop) {A} (m : M A) : Prop :=
  Forall P (trace m) ∧ ∀ e, outcome m = Raise e → Q e.

Definition may_raise (Q : exn -> Prop) {A} (r : result A) : Prop :=
  ∀ e, r = Raise e → Q e.

Definition recognized (t : string * string) : Prop :=
  t.1 ∈ DATASETS ∧ t.2 ∈ BENCHMARKS.

#[global] Instance recognized_dec t : Decision (recognized t).
Proof. unfold recognized. apply _. Defined.

Definition is_ValueError (e : exn) : Prop := ∃ msg, e = ValueError msg.
Definition is_NotImplementedError (e : exn) : Prop :=
  ∃ msg, e = NotImplementedError msg.

(** The events of loading: imports, reads and plain-text prints. *)
Definition loading_event (e : event) : Prop :=
  match e with
  | EImport _ | EReadCsv _ | EReadHdf5 _ => True
  | EPrint parts => ∀ p, p ∈ parts → ∃ s, p = Lit s
  | ECrossValidate _ _ _ _ _ _ | EToCsv _ _ => False
  end.

(** The file writes logged on a trace, in order. *)
Definition written (tr : list event) : list (string * DataFrame) :=
  omap (fun e => match e with EToCsv path df => Some (path, df) | _ => None end) tr.


Definition is_cross_validate (e : event) : Prop :=
  match e with ECrossValidate _ _ _ _ _ _ => True | _ => False end.

(** A report of scores: a print that shows the mean of a column. *)
Definition is_report (e : event) : Prop :=
  match e with EPrint parts => ∃ values, MeanOf values ∈ parts | _ => False end.


(** An event with the [n_jobs] argument of [cross_validate] blanked. *)
Definition forget_n_jobs (e : event) : event :=
  match e with
  | ECrossValidate model X y cv scoring _ => ECrossValidate model X y cv scoring 0
  | _ => e
  end.

Definition with_n_jobs (parsed : Args) (n : Z) : Args :=
  {| dataset := dataset parsed; benchmark := benchmark parsed; n_jobs := n |}.

(** The world in which [cross_validate] is handed [n] whatever the caller
    passes as [n_jobs]. *)
Definition pin_n_jobs (n : Z) (w : World) : World :=
  {| import_module := import_module w;
     read_participants := read_participants w;
     read_ok_subjects := read_ok_subjects w;
     read_hdf5 := read_hdf5 w;
     np_array := np_array w;
     slice_axis1 := slice_axis1 w;
     cross_validate := fun model X y cv scoring _ =>
                         cross_validate w model X y cv scoring n;
     to_csv := to_csv w |}.

(** Two runs that differ at most in the [n_jobs] shown to [cross_validate]. *)
Definition same_but_n_jobs {A} (m1 m2 : M A) : Prop :=
  map forget_n_jobs (trace m1) = map forget_n_jobs (trace m2) ∧
  outcome m1 = outcome m2.

Definition passes_n_jobs (n : Z) (e : event) : Prop :=
  match e with
  | ECrossValidate _ _ _ _ _ n_jobs => n_jobs = n
  | _ => True
  end.

(** The [n_jobs] arguments of the calls of [cross_validate] logged on a
    trace, in order. *)
Definition n_jobs_passed (tr : list event) : list Z :=
  omap (fun e => match e with
                 | ECrossValidate _ _ _ _ _ n_jobs => Some n_jobs
                 | _ => None
                 end) tr.

(** The library calls that take no worker count: prints, imports, reads and
    file writes. *)
Definition takes_no_worker_count (e : event) : Prop :=
  match e with
  | EPrint _ | EImport _ | EReadCsv _ | EReadHdf5 _ | EToCsv _ _ => True
  | ECrossValidate _ _ _ _ _ _ => False
  end.

(** The splitter [run_benchmark_cv] builds. *)
Definition benchmark_cv : KFold :=
  {| n_splits := 10; shuffle := true; random_state := Some 42%Z |}.

(** The values that occur in [values] are exactly [v]: the list is not
    empty and all its entries are [v]. *)
Definition shared_by (values : list Z) (v : Z) : Prop :=
  ∀ x, x ∈ values ↔ x = v.

(** An epochs object once the age of its subject is written in as the
    description of each of its events. *)
Definition with_age (e : X_y_model.Epochs) (age : Z) : X_y_model.Epochs :=
  {| X_y_model.epochs_len := X_y_model.epochs_len e;
     X_y_model.events_description := replicate (X_y_model.epochs_len e) age;
     X_y_model.n_times := X_y_model.n_times e;
     X_y_model.n_chans := X_y_model.n_chans e |}.

(** A generator that yields the items of [items] and then goes on as
    [rest]. *)
Fixpoint yields_then {A} (items : list A) (rest : X_y_model.gen A)
  : X_y_model.gen A :=
  match items with
  | [] => rest
  | a :: items' => X_y_model.GYield a (yields_then items' rest)
  end.

(** [needle] occurs in [hay]. *)
Definition substring_of (needle hay : string) : Prop :=
  ∃ before after, hay = before ++ needle ++ after.

(** The network [create_model] asks braindecode for. *)
Definition requested_net (model_name : string) (window_size n_channels : Z)
  : X_y_model.Net :=
  if decide (model_name = "shallow")
  then X_y_model.ShallowFBCSPNet n_channels 1 window_size "auto"
  else X_y_model.Deep4Net n_channels 1 window_size "auto".

(** What [create_model] comes to for a model name it does not know: the
    failure of the seeding if there is one, and else the failed assertion. *)
Definition unknown_name_outcome {A} (lib : X_y_model.Lib) (seed : Z) : result A :=
  match X_y_model.set_random_seeds lib seed (X_y_model.cuda_is_available lib) with
  | Returned _ => Raise AssertionError
  | Failed what => Raise (LibraryError what)
  end.

(** The condition [load_benchmark_data] works with: the one given, and
    without one 'pooled' for 'chbp' and 'lemon', 'rest' for the others. *)
Definition condition_or_default (ds : string) (condition : option string) : string :=
  match condition with
  | None => if decide (ds ∈ ["chbp"; "lemon"]) then "pooled" else "rest"
  | Some c => c
  end.

(** The two header lines the script prints once validation has passed. *)
Definition header (parsed : Args) : list event :=
  [EPrint [Lit ("Running benchmarks: " ++ join_comma (benchmarks_of parsed))];
   EPrint [Lit ("Datasets: " ++ join_comma (datasets_of parsed))]].

(** ** The monad *)

Section MonadFacts.
Context {A B : Type}.
Variables (P : event -> Prop) (Q : exn -> Prop).

Lemma bind_ok (m : M A) (f : A -> M B) tr a :
  m = (tr, Ok a) → m ≫= f = ((tr ++ trace (f a))%list, outcome (f a)).
Proof. intros ->. unfold mbind, M_bind, trace, outcome. by destruct (f a). Qed.

Lemma bind_raise (m : M A) (f : A -> M B) tr e :
  m = (tr, Raise e) → m ≫= f = (tr, Raise e).
Proof. by intros ->. Qed.

Lemma within_bind (m : M A) (f : A -> M B) :
  within P Q m → (∀ a, outcome m = Ok a → within P Q (f a)) → within P Q (m ≫= f).
Proof.
  destruct m as [tr [a|e]]; intros [Htr Hexn] Hf.
  - destruct (Hf a eq_refl) as [Htr' Hexn'].
    rewrite (bind_ok _ f tr a eq_refl). split.
    + apply Forall_app; split; assumption.
    + exact Hexn'.
  - rewrite (bind_raise _ f tr e eq_refl). split; [exact Htr|].
    intros e' [= <-]. by apply Hexn.
Qed.

Lemma within_ret (a : A) : within P Q (mret a : M A).
Proof. split; [constructor | intros e; discriminate]. Qed.

Lemma within_raise (e : exn) : Q e → within P Q (raise e : M A).
Proof. intros He. split; [constructor | by intros ? [= <-]]. Qed.

Lemma within_lift (r : result A) : may_raise Q r → within P Q (lift r).
Proof. intros Hr. split; [constructor | exact Hr]. Qed.

Lemma within_call (ev : event) (r : io A) :
  P ev → (∀ what, Q (LibraryError what)) → within P Q (call ev r).
Proof.
  intros Hev HQ. split; [by repeat constructor|].
  destruct r; intros e; simpl; [discriminate | by intros [= <-]].
Qed.

Lemma may_raise_ok (a : A) : may_raise Q (Ok a).
Proof. intros e; discriminate. Qed.

Lemma may_raise_of_io (r : io A) :
  (∀ what, Q (LibraryError what)) → may_raise Q (of_io r).
Proof. intros HQ e. destruct r; simpl; [discriminate | by intros [= <-]]. Qed.

Lemma may_raise_bind (r : result A) (f : A -> result B) :
  may_raise Q r → (∀ a, may_raise Q (f a)) → may_raise Q (r ≫= f).
Proof.
  intros Hr Hf. destruct r as [a|e]; [apply Hf|].
  intros e' [= <-]. by apply Hr.
Qed.

Lemma may_raise_comprehension (f : A -> result B) (l : list A) :
  (∀ a, may_raise Q (f a)) → may_raise Q (comprehension f l).
Proof.
  intros Hf. induction l as [|a l IH]; simpl; [by intros ?|].
  destruct (f a) as [b|e] eqn:Ea; [|intros e' [= <-]; by apply (Hf a)].
  destruct (comprehension f l) as [bs|e]; [by intros ?|].
  intros e' [= <-]. by apply IH.
Qed.
End MonadFacts.

Lemma within_emit P Q (ev : event) : P ev → within P Q (emit ev).
Proof. intros Hev. split; [by repeat constructor | intros e; discriminate]. Qed.

Lemma within_for_each {A} P Q (body : A -> M unit) (l : list A) :
  (∀ a, a ∈ l → within P Q (body a)) → within P Q (for_each body l).
Proof.
  induction l as [|a l IH]; intros Hbody; simpl; [apply within_ret|].
  apply within_bind; [apply Hbody; left|].
  intros _ _. apply IH. intros b Hb. apply Hbody. by right.
Qed.

Lemma may_raise_getitem {V} (Q : exn -> Prop) (d : list (string * V)) key :
  (∀ k, Q (KeyError k)) → may_raise Q (getitem d key).
Proof.
  intros HQ. induction d as [|[k v] d IH]; simpl.
  - by intros e [= <-].
  - destruct (decide (k = key)); [apply may_raise_ok | exact IH].
Qed.

Lemma may_raise_subscript (Q : exn -> Prop) obj key :
  (∀ k, Q (KeyError k)) → (∀ k, Q (IndexError k)) → may_raise Q (subscript obj key).
Proof.
  intros HK HI. destruct obj; simpl; [by intros e [= <-] | by apply may_raise_getitem].
Qed.

Lemma may_raise_cfg_item {A} (Q : exn -> Prop) (v : option A) key :
  Q (KeyError key) → may_raise Q (cfg_item v key).
Proof. intros HQ. destruct v; simpl; [apply may_raise_ok | by intros e [= <-]]. Qed.

Lemma may_raise_bound {A} (Q : exn -> Prop) name (v : option A) :
  Q (UnboundLocalError name) → may_raise Q (bound name v).
Proof. intros HQ. destruct v; simpl; [apply may_raise_ok | by intros e [= <-]]. Qed.

Lemma may_raise_band_columns (Q : exn -> Prop) w arr bands ii :
  (∀ what, Q (LibraryError what)) → may_raise Q (band_columns w arr ii bands).
Proof.
  intros HQ. revert ii. induction bands as [|band bands IH]; intros ii; simpl.
  - apply may_raise_ok.
  - apply may_raise_bind; [by apply may_raise_of_io|]. intros col.
    apply may_raise_bind; [apply IH|]. intros rest. apply may_raise_ok.
Qed.

Create HintDb raises discriminated.
#[export] Hint Resolve may_raise_ok may_raise_of_io may_raise_getitem
  may_raise_subscript may_raise_cfg_item may_raise_bound
  may_raise_band_columns : raises.
#[export] Hint Extern 2 (may_raise _ (comprehension _ _)) =>
  apply may_raise_comprehension; intros : raises.
#[export] Hint Extern 2 (may_raise _ (_ ≫= _)) =>
  apply may_raise_bind; [|intros] : raises.

Lemma may_raise_loc (Q : exn -> Prop) df good :
  (∀ k, Q (KeyError k)) → may_raise Q (loc df good).
Proof.
  intros HK. unfold loc. apply may_raise_bind.
  - apply may_raise_comprehension. intros sub.
    destruct (filter _ df); [by intros e [= <-] | apply may_raise_ok].
  - intros rows. apply may_raise_ok.
Qed.

Lemma loading_event_print s : loading_event (EPrint [Lit s]).
Proof. intros p ->%list_elem_of_singleton. by exists s. Qed.

(** ** Facts about the driver *)

Lemma config_map_None ds : config_map !! ds = None ↔ ds ∉ DATASETS.
Proof.
  unfold config_map, DATASETS. split.
  - intros H Hin.
    repeat (apply elem_of_cons in Hin as [->|Hin]; [vm_compute in H; discriminate|]).
    by apply elem_of_nil in Hin.
  - intros Hnot. rewrite !lookup_insert_ne; [done|..];
      intros <-; apply Hnot; set_solver.
Qed.

(** One step through a computation in [M], for goals of the form
    [within P Q m]. *)
Ltac within_step :=
  lazymatch goal with
  | |- within _ _ (_ ≫= _) => apply within_bind; [|intros ? ?]
  | |- within _ _ (mret _) => apply within_ret
  | |- within _ _ (raise _) => apply within_raise
  | |- within _ _ (lift _) => apply within_lift
  | |- within _ _ (call _ _) => apply within_call
  | |- within _ _ (print _) => apply within_emit
  | |- within _ _ (emit _) => apply within_emit
  | |- within _ _ (if ?c then _ else _) => destruct c
  | |- within _ _ (match ?x with _ => _ end) => destruct x
  end.

(** Loading logs imports, reads and plain prints only; a [ValueError] can
    come from an unknown dataset name only, and a [NotImplementedError]
    from the benchmark 'deep' only. *)
Lemma load_benchmark_data_within (Q : exn -> Prop) w ds bm c :
  (∀ k, Q (KeyError k)) → (∀ k, Q (IndexError k)) →
  (∀ k, Q (UnboundLocalError k)) → (∀ k, Q (LibraryError k)) →
  (bm = "deep" → ∀ k, Q (NotImplementedError k)) →
  (ds ∉ DATASETS → ∀ k, Q (ValueError k)) →
  within loading_event Q (load_benchmark_data w ds bm c).
Proof.
  intros HK HI HU HL HN HV. unfold load_benchmark_data.
  destruct (config_map !! ds) as [config_name|] eqn:Hcfg.
  2:{ apply within_raise, HV. by apply config_map_None. }
  repeat within_step;
    solve [ done | apply loading_event_print | by apply may_raise_loc
          | by apply HN | auto with raises ].
Qed.

Lemma check_task_ok t : check_task t = Ok tt ↔ recognized t.
Proof.
  destruct t as [d b]. unfold check_task, recognized; simpl.
  destruct (decide (d ∈ DATASETS)), (decide (b ∈ BENCHMARKS));
    (split; [done | by intros [??]]).
Qed.

Lemma check_task_raises t e :
  check_task t = Raise e →
  ((t.1 ∉ DATASETS) ∧ e = ValueError ("The dataset '" ++ (t.1) ++ "' passed is unkonwn")) ∨
  (t.1 ∈ DATASETS ∧ (t.2 ∉ BENCHMARKS) ∧
   e = ValueError ("The benchmark '" ++ (t.2) ++ "' passed is unkonwn")).
Proof.
  destruct t as [d b]. unfold check_task; simpl.
  destruct (decide (d ∈ DATASETS)), (decide (b ∈ BENCHMARKS));
    intros H; try discriminate; injection H as <-; auto.
Qed.

Lemma validate_ok tasks : validate tasks = Ok tt ↔ Forall recognized tasks.
Proof.
  induction tasks as [|t tasks IH]; simpl; [by split; [constructor|]|].
  destruct (check_task t) as [[]|e] eqn:Ht.
  - apply check_task_ok in Ht. rewrite IH. split.
    + by constructor.
    + by inversion 1.
  - split; [discriminate|]. inversion 1 as [|?? Hr]; subst.
    apply check_task_ok in Hr. congruence.
Qed.

Lemma validate_raises tasks e :
  validate tasks = Raise e →
  ∃ d b, (d, b) ∈ tasks ∧
    (((d ∉ DATASETS) ∧ e = ValueError ("The dataset '" ++ d ++ "' passed is unkonwn")) ∨
     (d ∈ DATASETS ∧ (b ∉ BENCHMARKS) ∧
      e = ValueError ("The benchmark '" ++ b ++ "' passed is unkonwn"))).
Proof.
  induction tasks as [|t tasks IH]; simpl; [discriminate|].
  destruct (check_task t) as [[]|e'] eqn:Ht.
  - intros (d & b & Hin & H)%IH. exists d, b. split; [by right | exact H].
  - intros [= ->]. destruct t as [d b]. exists d, b.
    split; [by left | by apply check_task_raises in Ht].
Qed.

Lemma validate_rejects tasks :
  Exists (fun t => ¬ recognized t) tasks → ∃ msg, validate tasks = Raise (ValueError msg).
Proof.
  intros Hex. destruct (validate tasks) as [[]|e] eqn:Hv.
  - apply validate_ok in Hv. apply Exists_exists in Hex as (t & Hin & Hbad).
    rewrite Forall_forall in Hv. destruct Hbad. by apply Hv.
  - apply validate_raises in Hv as (d & b & _ & [[_ ->]|(_ & _ & ->)]); eauto.
Qed.

Lemma main_invalid w parsed e :
  validate (tasks_of (datasets_of parsed) (benchmarks_of parsed)) = Raise e →
  main w parsed = ([], Raise e).
Proof. intros Hv. unfold main. by rewrite Hv. Qed.

Lemma elem_of_tasks_of datasets benchmarks d b :
  (d, b) ∈ tasks_of datasets benchmarks ↔ d ∈ datasets ∧ b ∈ benchmarks.
Proof.
  unfold tasks_of. rewrite !list_elem_of_In, in_flat_map. split.
  - intros (ds & Hds & Hin). apply in_map_iff in Hin as (bs & [= <- <-] & Hbs).
    done.
  - intros [Hd Hb]. exists d. split; [done|]. apply in_map_iff. by exists b.
Qed.

(** [run_benchmark_cv], step by step: what is logged and returned, by the
    outcome of loading and of cross-validation. *)
Lemma run_benchmark_cv_steps w nj bm ds :
  run_benchmark_cv w nj bm ds =
  match load_benchmark_data w ds bm None with
  | (tr, Raise e) => (tr, Raise e)
  | (tr, Ok (X, y, model)) =>
      let cv := {| n_splits := 10; shuffle := true; random_state := Some 42%Z |} in
      let ev := ECrossValidate model X y cv metrics nj in
      match cross_validate w model X y cv metrics nj with
      | Failed what => ((tr ++ [ev])%list, Raise (LibraryError what))
      | Returned scores =>
          ((tr ++
            [ev;
             EPrint [Lit ("MAE(" ++ bm ++ ", " ++ ds ++ ") = ");
                     MeanOf (map (fun s => PrimFloat.mul s (-1)%float)
                               (test_neg_mean_absolute_error scores))];
             EPrint [Lit ("r2(" ++ bm ++ ", " ++ ds ++ ") = ");
                     MeanOf (test_r2 scores)]])%list,
           Ok (results_frame scores))
      end
  end.
Proof.
  unfold run_benchmark_cv.
  destruct (load_benchmark_data w ds bm None) as [tr [[[X y] model]|e]]; [|done].
  unfold mbind at 1, M_bind at 1.
  destruct (cross_validate w model X y _ metrics nj) as [scores|what]; [|done].
  reflexivity.
Qed.




Lemma load_benchmark_data_trace w ds bm c :
  Forall loading_event (trace (load_benchmark_data w ds bm c)).
Proof. by apply (load_benchmark_data_within (fun _ => True)). Qed.


(** One iteration of the closing loop, by the outcome of its steps. *)
Lemma run_task_steps w nj ds bm :
  run_task w nj (ds, bm) =
  let started := EPrint [Lit ("Now running '" ++ bm ++ "' on '" ++ ds ++ "' data")] in
  match run_benchmark_cv w nj bm ds with
  | (tr, Raise e) => (started :: tr, Raise e)
  | (tr, Ok df) =>
      match to_csv w (results_path bm ds) df with
      | Failed what => (started :: tr, Raise (LibraryError what))
      | Returned _ => (started :: tr ++ [EToCsv (results_path bm ds) df], Ok tt)
      end
  end.
Proof.
  unfold run_task.
  destruct (run_benchmark_cv w nj bm ds) as [tr [df|e]]; [|done].
  unfold mbind, M_bind; simpl.
  destruct (to_csv w (results_path bm ds) df) as [[]|what]; simpl;
    by rewrite ?app_nil_r.
Qed.

Lemma within_weaken {A} (P P' : event -> Prop) (Q Q' : exn -> Prop) (m : M A) :
  (∀ e, P e → P' e) → (∀ e, Q e → Q' e) → within P Q m → within P' Q' m.
Proof.
  intros HP HQ [Htr Hexn]. split.
  - eapply Forall_impl; [exact Htr | exact HP].
  - intros e He. by apply HQ, Hexn.
Qed.

Lemma not_ValueError_cases :
  (∀ k, ¬ is_ValueError (KeyError k)) ∧ (∀ k, ¬ is_ValueError (IndexError k)) ∧
  (∀ k, ¬ is_ValueError (UnboundLocalError k)) ∧
  (∀ k, ¬ is_ValueError (LibraryError k)) ∧
  (∀ k, ¬ is_ValueError (NotImplementedError k)).
Proof. repeat split; intros k [msg [=]]. Qed.

(** Once the names are validated, nothing in an iteration raises
    [ValueError]. *)
Lemma run_task_no_ValueError w nj t :
  recognized t →
  within (fun _ => True) (fun e => ¬ is_ValueError e) (run_task w nj t).
Proof.
  destruct t as [ds bm]. intros [Hds _]; simpl in Hds.
  destruct not_ValueError_cases as (HK & HI & HU & HL & HN).
  unfold run_task, run_benchmark_cv.
  repeat first
    [ within_step
    | apply (within_weaken loading_event _ (fun e => ¬ is_ValueError e) _);
        [done | done | by apply load_benchmark_data_within; [..|intros _|]]
    | apply within_for_each; intros; unfold report ];
    solve [ done | auto with raises | by apply may_raise_getitem ].
Qed.

Lemma main_no_ValueError w parsed :
  Forall recognized (tasks_of (datasets_of parsed) (benchmarks_of parsed)) →
  ∀ e, outcome (main w parsed) = Raise e → ¬ is_ValueError e.
Proof.
  intros Hrec. unfold main. rewrite (proj2 (validate_ok _) Hrec).
  cut (within (fun _ => True) (fun e => ¬ is_ValueError e)
         (for_each (run_task w (n_jobs parsed))
            (tasks_of (datasets_of parsed) (benchmarks_of parsed)))).
  { intros [_ H] e He. apply H. revert He. unfold outcome, mbind, M_bind; simpl.
    by destruct (for_each _ _). }
  apply within_for_each. intros t Ht. apply run_task_no_ValueError.
  rewrite Forall_forall in Hrec. by apply Hrec.
Qed.

(** ** Validation of the requested names *)

(** Claim C2.  The pairs are built from the parsed arguments (defaults
    included).  If some pair has a dataset outside 'chbp', 'lemon', 'tuab',
    'camcan' or a benchmark outside 'dummy', 'filterbank-riemann',
    'filterbank-source', 'handcrafted', the validation loop raises a
    [ValueError], and the whole script stops there with nothing logged: no
    print, no import, no read, no benchmark run.  If every name is
    recognized, validation raises nothing, and no [ValueError] is raised
    later in the run either. *)
Theorem validation_of_tasks (w : World) (parsed : Args) :
  let tasks := tasks_of (datasets_of parsed) (benchmarks_of parsed) in
  (Exists (fun t => ¬ recognized t) tasks →
   ∃ msg, validate tasks = Raise (ValueError msg) ∧
          main w parsed = ([], Raise (ValueError msg))) ∧
  (Forall recognized tasks →
   validate tasks = Ok tt ∧
   ∀ e, outcome (main w parsed) = Raise e → ¬ is_ValueError e).
Proof.
  intros tasks. split.
  - intros Hbad. destruct (validate_rejects tasks Hbad) as [msg Hv].
    exists msg. split; [exact Hv | by apply main_invalid].
  - intros Hrec. split; [by apply validate_ok | by apply main_no_ValueError].
Qed.

Lemma validation_of_tasks_witness :
  (∃ msg, main sample_world (sample_args (Some ["chbp"; "hcp"]) (Some ["dummy"]))
          = ([], Raise (ValueError msg))) ∧
  validate (tasks_of DATASETS BENCHMARKS) = Ok tt.
Proof.
  split.
  - destruct (validation_of_tasks sample_world
                (sample_args (Some ["chbp"; "hcp"]) (Some ["dummy"]))) as [H _].
    destruct H as (msg & _ & Hmain).
    + apply (bool_decide_unpack _). vm_compute. reflexivity.
    + exists msg. exact Hmain.
  - destruct (validation_of_tasks sample_world (sample_args None None)) as [_ H].
    apply H. apply (bool_decide_unpack _). vm_compute. reflexivity.
Defined.

(** ** The benchmark and dataset names *)

(** Claim C5, as the code has it.  The benchmark names that validation
    accepts are exactly the four of [BENCHMARKS]: 'dummy',
    'filterbank-riemann', 'filterbank-source' and 'handcrafted'; 'deep' is
    turned down with a [ValueError] before anything runs.  The dataset names
    are exactly the four of [DATASETS].  Without a selection on the command
    line the tasks are the sixteen pairs of a dataset with a benchmark,
    datasets in the outer loop. *)
Theorem benchmark_and_dataset_names :
  (∀ d b, validate (tasks_of [d] [b]) = Ok tt ↔ d ∈ DATASETS ∧ b ∈ BENCHMARKS) ∧
  (∀ b, b ∈ BENCHMARKS ↔
        b = "dummy" ∨ b = "filterbank-riemann" ∨ b = "filterbank-source" ∨
        b = "handcrafted") ∧
  (∀ d, d ∈ DATASETS ↔ d = "chbp" ∨ d = "lemon" ∨ d = "tuab" ∨ d = "camcan") ∧
  NoDup BENCHMARKS ∧ length BENCHMARKS = 4 ∧
  NoDup DATASETS ∧ length DATASETS = 4 ∧
  (∀ w nj d, ∃ msg,
     main w {| dataset := Some [d]; benchmark := Some ["deep"]; n_jobs := nj |}
     = ([], Raise (ValueError msg))) ∧
  (∀ nj,
     let parsed := {| dataset := None; benchmark := None; n_jobs := nj |} in
     let tasks := tasks_of (datasets_of parsed) (benchmarks_of parsed) in
     length tasks = 16 ∧ NoDup tasks ∧
     (∀ d b, (d, b) ∈ tasks ↔ d ∈ DATASETS ∧ b ∈ BENCHMARKS) ∧
     tasks =
       [("chbp", "dummy"); ("chbp", "filterbank-riemann");
        ("chbp", "filterbank-source"); ("chbp", "handcrafted");
        ("lemon", "dummy"); ("lemon", "filterbank-riemann");
        ("lemon", "filterbank-source"); ("lemon", "handcrafted");
        ("tuab", "dummy"); ("tuab", "filterbank-riemann");
        ("tuab", "filterbank-source"); ("tuab", "handcrafted");
        ("camcan", "dummy"); ("camcan", "filterbank-riemann");
        ("camcan", "filterbank-source"); ("camcan", "handcrafted")]).
Proof.
  split_and!.
  - intros d b. rewrite validate_ok. unfold tasks_of; simpl. split.
    + by inversion 1.
    + intros H. constructor; [exact H | constructor].
  - intros b. unfold BENCHMARKS. rewrite !elem_of_cons, elem_of_nil. tauto.
  - intros d. unfold DATASETS. rewrite !elem_of_cons, elem_of_nil. tauto.
  - apply (bool_decide_unpack _). by vm_compute.
  - reflexivity.
  - apply (bool_decide_unpack _). by vm_compute.
  - reflexivity.
  - intros w nj d.
    destruct (validate_rejects (tasks_of [d] ["deep"])) as [msg Hv].
    + apply Exists_cons_hd. intros [_ Hb]; simpl in Hb.
      revert Hb. apply (bool_decide_unpack _). by vm_compute.
    + exists msg. by apply main_invalid.
  - intros nj parsed tasks. split_and!.
    + reflexivity.
    + apply (bool_decide_unpack _). by vm_compute.
    + intros d b. apply elem_of_tasks_of.
    + reflexivity.
Qed.

(** Claim C5, as stated, fails: it counts a deep-learning variant among the
    runnable strategies, but [BENCHMARKS] has four names, 'deep' is not one
    of them, the default run has no task for it, and asking for it stops the
    script at validation. *)
Lemma deep_is_not_a_runnable_benchmark :
  ("deep" ∉ BENCHMARKS) ∧ length BENCHMARKS = 4 ∧
  (∀ d, (d, "deep") ∉ tasks_of (datasets_of (sample_args None None))
                        (benchmarks_of (sample_args None None))) ∧
  main sample_world (sample_args (Some ["chbp"]) (Some ["deep"]))
  = ([], Raise (ValueError "The benchmark 'deep' passed is unkonwn")).
Proof.
  split_and!.
  - apply (bool_decide_unpack _). by vm_compute.
  - reflexivity.
  - intros d [_ Hb]%elem_of_tasks_of. revert Hb.
    apply (bool_decide_unpack _). by vm_compute.
  - reflexivity.
Qed.

(** ** Loading: the entries of [bench_config] *)

Lemma bench_config_filterbank_riemann :
  ∃ bands, bench_config !! "filterbank-riemann"
           = Some {| frequency_bands := Some bands; feature_map := Some "fb_covs" |} ∧
           map fst bands
           = ["low"; "delta"; "theta"; "alpha"; "beta_low"; "beta_mid"; "beta_high"].
Proof. eexists. split; reflexivity. Qed.

Lemma bench_config_filterbank_source :
  bench_config !! "filterbank-source"
  = Some {| frequency_bands := None; feature_map := Some "source_power" |}.
Proof. reflexivity. Qed.

Lemma bench_config_handcrafted :
  bench_config !! "handcrafted"
  = Some {| frequency_bands := None; feature_map := Some "handcrafted" |}.
Proof. reflexivity. Qed.

Lemma bench_config_deep : bench_config !! "deep" = None.
Proof. reflexivity. Qed.

(** Case analysis on every library outcome met along a run. *)
Ltac run_cases :=
  unfold call, lift, print, emit, raise, outcome, trace in *; simpl in *;
  repeat (case_match; simpl in *; simplify_eq; try done).

(** With 'filterbank-source' loading never returns. *)
Lemma load_filterbank_source_raises w ds c :
  ∃ e, outcome (load_benchmark_data w ds "filterbank-source" c) = Raise e.
Proof.
  unfold load_benchmark_data.
  destruct (config_map !! ds) as [config_name|]; [|by eexists].
  rewrite bench_config_filterbank_source.
  unfold call, lift, print, emit, outcome.
  destruct (import_module w config_name) as [cfg|what]; [|by eexists].
  simpl.
  destruct (read_participants w _) as [df|what]; [|by eexists].
  simpl.
  destruct (read_ok_subjects w _) as [good|what]; [|by eexists].
  simpl.
  destruct (loc df good) as [df'|e]; [|by eexists].
  simpl. by eexists.
Qed.

(** With the other three benchmarks, whatever loading returns has features,
    ages and a model. *)
Lemma load_returns_a_model w ds bm c tr X y model :
  bm ∈ BENCHMARKS → bm ≠ "filterbank-source" →
  load_benchmark_data w ds bm c = (tr, Ok (X, y, model)) →
  is_Some X ∧ is_Some y ∧ is_Some model.
Proof.
  intros Hbm Hne. unfold BENCHMARKS in Hbm.
  rewrite !elem_of_cons, elem_of_nil in Hbm.
  destruct Hbm as [->|[->|[->|[->|[]]]]]; try done; unfold load_benchmark_data.
  - destruct (config_map !! ds); [|done]. run_cases.
    intros [= <- <- <- <-]. eauto.
  - destruct (config_map !! ds); [|done].
    destruct bench_config_filterbank_riemann as (bands & -> & _). run_cases.
    all: intros [= <- <- <- <-]; eauto.
  - destruct (config_map !! ds); [|done].
    rewrite bench_config_handcrafted. run_cases.
    all: intros [= <- <- <- <-]; eauto.
Qed.

(** ** Loading: the benchmarks that cannot be loaded *)

(** Claim C1 (a defect of the code).  The claim promises a model for every
    recognized benchmark, 'filterbank-source' in particular.  On the code,
    loading 'filterbank-source' never returns, whatever the dataset, the
    condition and the files read: its entry of [bench_config] has no
    'frequency_bands' key, so the branch stops on a [KeyError] at its first
    line, as the run on the sample data shows.  (Further down the same
    branch builds a transformer and leaves [model] at [None].) *)
Theorem filterbank_source_is_never_loaded :
  (∀ w ds c tr r, load_benchmark_data w ds "filterbank-source" c ≠ (tr, Ok r)) ∧
  load_benchmark_data sample_world "chbp" "filterbank-source" None
  = ([EImport "config_chbp_eeg"; EReadCsv "/data/bids/participants.tsv";
      EReadCsv "/data/derivatives/feature_source_power_pooled-log.csv";
      EPrint [Lit "Found data from 2 subjects"]],
     Raise (KeyError "frequency_bands")).
Proof.
  split; [|reflexivity].
  intros w ds c tr r Hload.
  destruct (load_filterbank_source_raises w ds c) as [e He].
  rewrite Hload in He. discriminate.
Qed.

Lemma load_deep_outcome w ds c :
  match outcome (load_benchmark_data w ds "deep" c) with
  | Raise (KeyError key) => key = "deep"
  | Raise (ValueError _) => ds ∉ DATASETS
  | Raise (LibraryError _) => True
  | _ => False
  end.
Proof.
  unfold load_benchmark_data.
  destruct (config_map !! ds) as [config_name|] eqn:Hcfg;
    [|by apply config_map_None].
  rewrite bench_config_deep.
  unfold call, lift, print, emit, outcome.
  destruct (import_module w config_name) as [cfg|what]; [|done].
  simpl.
  destruct (read_participants w _) as [df|what]; done.
Qed.

Lemma load_never_NotImplementedError w ds bm c msg :
  outcome (load_benchmark_data w ds bm c) ≠ Raise (NotImplementedError msg).
Proof.
  destruct (decide (bm = "deep")) as [->|Hne].
  - pose proof (load_deep_outcome w ds c) as H. intros Heq.
    by rewrite Heq in H.
  - intros Heq.
    assert (Hw : within loading_event (fun e => ¬ is_NotImplementedError e)
                   (load_benchmark_data w ds bm c)).
    { apply load_benchmark_data_within;
        [intros k [? [=]].. | done | intros _ k [? [=]]]. }
    destruct Hw as [_ Hw]. apply (Hw _ Heq). by eexists.
Qed.

(** Claim C3 (a defect of the code).  The claim has 'deep' raise
    [NotImplementedError].  On the code the branch that raises it is never
    reached: 'deep' differs from 'dummy', so [bench_config['deep']] is
    looked up first, and [bench_config] has no such key.  For a known
    dataset whose configuration and participants file load, the call raises
    [KeyError('deep')]; it never raises [NotImplementedError], and neither
    does any other benchmark name. *)
Theorem deep_raises_KeyError :
  (∀ w ds c,
     match outcome (load_benchmark_data w ds "deep" c) with
     | Raise (KeyError key) => key = "deep"
     | Raise (ValueError _) => ds ∉ DATASETS
     | Raise (LibraryError _) => True
     | _ => False
     end) ∧
  (∀ w ds bm c msg,
     outcome (load_benchmark_data w ds bm c) ≠ Raise (NotImplementedError msg)) ∧
  load_benchmark_data sample_world "chbp" "deep" None
  = ([EImport "config_chbp_eeg"; EReadCsv "/data/bids/participants.tsv"],
     Raise (KeyError "deep")).
Proof.
  split_and!.
  - apply load_deep_outcome.
  - apply load_never_NotImplementedError.
  - reflexivity.
Qed.

(** ** Running one benchmark *)

Lemma loading_event_not_cv_nor_report e :
  loading_event e → ¬ is_cross_validate e ∧ ¬ is_report e.
Proof.
  destruct e; simpl; intros Hlit; try done; (split; [by intros ?|]);
    try by intros ?.
  intros [values Hin]. by destruct (Hlit _ Hin).
Qed.

(** Claim C6.  [run_benchmark_cv] first loads: the events of
    [load_benchmark_data] come first on the trace, and none of them is a
    cross-validation or a report of scores.  If loading raises, the run
    stops there.  Otherwise [cross_validate] is called once, on the loaded
    model, features and ages, with a 10-fold [KFold]; if it fails nothing is
    reported; if it returns, the two reports (MAE, then r2) follow the call,
    and the frame is returned. *)
Theorem run_benchmark_cv_order (w : World) (N_JOBS : Z) (bm ds : string) :
  let loading := load_benchmark_data w ds bm None in
  Forall (fun e => ¬ is_cross_validate e ∧ ¬ is_report e) (trace loading) ∧
  match outcome loading with
  | Raise e => run_benchmark_cv w N_JOBS bm ds = (trace loading, Raise e)
  | Ok (X, y, model) =>
      let cv := {| n_splits := 10; shuffle := true; random_state := Some 42%Z |} in
      let ev := ECrossValidate model X y cv metrics N_JOBS in
      n_splits cv = 10%Z ∧ is_cross_validate ev ∧
      match cross_validate w model X y cv metrics N_JOBS with
      | Failed what =>
          run_benchmark_cv w N_JOBS bm ds
          = ((trace loading ++ [ev])%list, Raise (LibraryError what))
      | Returned scores =>
          ∃ report_MAE report_r2,
            is_report report_MAE ∧ is_report report_r2 ∧
            report_MAE =
              EPrint [Lit ("MAE(" ++ bm ++ ", " ++ ds ++ ") = ");
                      MeanOf (map (fun s => PrimFloat.mul s (-1)%float)
                                (test_neg_mean_absolute_error scores))] ∧
            report_r2 =
              EPrint [Lit ("r2(" ++ bm ++ ", " ++ ds ++ ") = ");
                      MeanOf (test_r2 scores)] ∧
            run_benchmark_cv w N_JOBS bm ds
            = ((trace loading ++ [ev; report_MAE; report_r2])%list,
               Ok (results_frame scores))
      end
  end.
Proof.
  intros loading. split.
  - eapply Forall_impl; [apply load_benchmark_data_trace|].
    apply loading_event_not_cv_nor_report.
  - rewrite run_benchmark_cv_steps. subst loading. unfold trace, outcome.
    destruct (load_benchmark_data w ds bm None) as [tr [[[X y] model]|e]];
      simpl; [|done].
    split_and!; [done..|].
    destruct (cross_validate w model X y _ metrics N_JOBS) as [scores|what];
      [|done].
    eexists _, _. split_and!; [| |reflexivity..].
    + eexists. apply list_elem_of_further, list_elem_of_here.
    + eexists. apply list_elem_of_further, list_elem_of_here.
Qed.

Lemma run_benchmark_cv_returns w nj bm ds df :
  outcome (run_benchmark_cv w nj bm ds) = Ok df →
  ∃ X y model scores,
    outcome (load_benchmark_data w ds bm None) = Ok (X, y, model) ∧
    cross_validate w model X y
      {| n_splits := 10; shuffle := true; random_state := Some 42%Z |}
      metrics nj = Returned scores ∧
    df = results_frame scores.
Proof.
  rewrite run_benchmark_cv_steps.
  destruct (load_benchmark_data w ds bm None) as [tr [[[X y] model]|e]];
    simpl; [|done].
  destruct (cross_validate w model X y _ metrics nj) as [scores|what] eqn:Hcv;
    simpl; [|done].
  intros [= <-]. by exists X, y, model, scores.
Qed.


(** ** The closing loop *)

Lemma for_each_cons {A} (body : A -> M unit) a l :
  for_each body (a :: l) = body a ≫= fun _ => for_each body l.
Proof. reflexivity. Qed.

(** A loop that ends normally has run every body to its end, and its trace
    is theirs, one after the other. *)
Lemma for_each_ok {A} (body : A -> M unit) (l : list A) :
  outcome (for_each body l) = Ok tt →
  Forall (fun a => outcome (body a) = Ok tt) l ∧
  trace (for_each body l) = concat (map (fun a => trace (body a)) l).
Proof.
  induction l as [|a l IH]; [by split; [constructor|]|].
  rewrite for_each_cons. unfold mbind, M_bind, trace, outcome in *.
  destruct (body a) as [tr [[]|e]] eqn:Ha; simpl; [|done].
  destruct (for_each body l) as [tr' r']; simpl in *.
  intros Hr. destruct (IH Hr) as [Hall Htr]. split.
  - constructor; [by rewrite Ha | exact Hall].
  - by rewrite Ha, Htr.
Qed.

(** A loop that raises stopped in the first body that raised: the bodies
    before it ended normally, those after it were not run. *)
Lemma for_each_raise {A} (body : A -> M unit) (l : list A) e :
  outcome (for_each body l) = Raise e →
  ∃ completed failing rest,
    l = (completed ++ failing :: rest)%list ∧
    Forall (fun a => outcome (body a) = Ok tt) completed ∧
    outcome (body failing) = Raise e ∧
    trace (for_each body l)
    = (concat (map (fun a => trace (body a)) completed)
       ++ trace (body failing))%list.
Proof.
  induction l as [|a l IH]; [done|].
  rewrite for_each_cons. unfold mbind, M_bind, trace, outcome in *.
  destruct (body a) as [tr [[]|e']] eqn:Ha; simpl.
  - destruct (for_each body l) as [tr' r']; simpl in *.
    intros Hr. destruct (IH Hr) as (completed & failing & rest & -> & Hall & Hf & Htr).
    exists (a :: completed), failing, rest. split_and!; [done| |done|].
    + constructor; [by rewrite Ha | done].
    + simpl. rewrite Ha. simpl. by rewrite Htr, app_assoc.
  - intros [= ->]. exists [], a, l. rewrite Ha. by split_and!.
Qed.




(** ** The [n_jobs] argument *)

Lemma same_but_n_jobs_bind {A B} (m1 m2 : M A) (f1 f2 : A -> M B) :
  same_but_n_jobs m1 m2 → (∀ a, same_but_n_jobs (f1 a) (f2 a)) →
  same_but_n_jobs (m1 ≫= f1) (m2 ≫= f2).
Proof.
  destruct m1 as [tr1 r1], m2 as [tr2 r2]. unfold same_but_n_jobs, trace, outcome.
  simpl. intros [Htr <-] Hf. destruct r1 as [a|e]; [|done].
  specialize (Hf a). unfold mbind, M_bind.
  destruct (f1 a) as [tr1' r1'], (f2 a) as [tr2' r2']; simpl in *.
  destruct Hf as [Htr' <-]. split; [|done].
  by rewrite !map_app, Htr, Htr'.
Qed.

Lemma same_but_n_jobs_for_each {A} (body1 body2 : A -> M unit) l :
  (∀ a, same_but_n_jobs (body1 a) (body2 a)) →
  same_but_n_jobs (for_each body1 l) (for_each body2 l).
Proof.
  intros Hbody. induction l as [|a l IH]; [by split|].
  rewrite !for_each_cons. by apply same_but_n_jobs_bind.
Qed.

(** Loading does not look at [cross_validate]. *)
Lemma load_benchmark_data_pin n w ds bm c :
  load_benchmark_data (pin_n_jobs n w) ds bm c = load_benchmark_data w ds bm c.
Proof. reflexivity. Qed.

Lemma run_task_pin w n n' t :
  same_but_n_jobs (run_task (pin_n_jobs n w) n' t) (run_task w n t).
Proof.
  destruct t as [ds bm]. unfold run_task, run_benchmark_cv.
  rewrite load_benchmark_data_pin.
  repeat first
    [ apply same_but_n_jobs_bind; [|intros ?]
    | match goal with |- same_but_n_jobs (let '(_, _) := ?p in _) _ => destruct p end
    | by split ].
Qed.

Lemma loading_passes_n_jobs n e : loading_event e → passes_n_jobs n e.
Proof. by destruct e. Qed.

Lemma main_passes_n_jobs w parsed :
  Forall (passes_n_jobs (n_jobs parsed)) (trace (main w parsed)).
Proof.
  cut (within (passes_n_jobs (n_jobs parsed)) (fun _ => True) (main w parsed)).
  { by intros [H _]. }
  unfold main.
  repeat first
    [ within_step
    | apply within_for_each; intros [ds bm] _; unfold run_task, run_benchmark_cv ];
    try done.
  - apply (within_weaken loading_event _ (fun _ => True) _);
      [apply loading_passes_n_jobs | done |].
    by apply load_benchmark_data_within.
  - apply within_for_each. intros metric _. unfold report.
    repeat within_step; done.
Qed.

Lemma n_jobs_passed_app tr tr' :
  n_jobs_passed (tr ++ tr') = (n_jobs_passed tr ++ n_jobs_passed tr')%list.
Proof. apply omap_app. Qed.

Lemma n_jobs_passed_loading tr : Forall loading_event tr → n_jobs_passed tr = [].
Proof.
  induction 1 as [|e tr He _ IH]; [done|].
  destruct e; simpl in *; try exact IH; done.
Qed.

Lemma loading_takes_no_worker_count e : loading_event e → takes_no_worker_count e.
Proof. by destruct e. Qed.

(** A call of [run_benchmark_cv] whose data loads: one call of
    [cross_validate], on the loaded data, and its result decides the
    outcome. *)
Lemma run_benchmark_cv_calls w nj bm ds X y model :
  outcome (load_benchmark_data w ds bm None) = Ok (X, y, model) →
  n_jobs_passed (trace (run_benchmark_cv w nj bm ds)) = [nj] ∧
  ECrossValidate model X y benchmark_cv metrics nj
    ∈ trace (run_benchmark_cv w nj bm ds) ∧
  outcome (run_benchmark_cv w nj bm ds)
  = match cross_validate w model X y benchmark_cv metrics nj with
    | Returned scores => Ok (results_frame scores)
    | Failed what => Raise (LibraryError what)
    end.
Proof.
  rewrite run_benchmark_cv_steps.
  pose proof (load_benchmark_data_trace w ds bm None) as Hl.
  apply n_jobs_passed_loading in Hl.
  destruct (load_benchmark_data w ds bm None) as [tr [[[X' y'] model']|e]];
    unfold trace, outcome in *; simpl in *; [|done].
  intros [= -> -> ->]. fold benchmark_cv.
  destruct (cross_validate w model X y benchmark_cv metrics nj) as [scores|what];
    simpl; rewrite n_jobs_passed_app, Hl; (split_and!; [done| |done]);
    apply elem_of_app; right; apply list_elem_of_here.
Qed.

(** An iteration of the closing loop that ends normally made one call of
    [cross_validate], on the data loaded for its task. *)
Lemma run_task_calls w nj ds bm :
  outcome (run_task w nj (ds, bm)) = Ok tt →
  n_jobs_passed (trace (run_task w nj (ds, bm))) = [nj] ∧
  ∃ X y model scores,
    outcome (load_benchmark_data w ds bm None) = Ok (X, y, model) ∧
    cross_validate w model X y benchmark_cv metrics nj = Returned scores ∧
    ECrossValidate model X y benchmark_cv metrics nj
      ∈ trace (run_task w nj (ds, bm)).
Proof.
  rewrite run_task_steps.
  pose proof (run_benchmark_cv_returns w nj bm ds) as Hret.
  pose proof (run_benchmark_cv_calls w nj bm ds) as Hcalls.
  destruct (run_benchmark_cv w nj bm ds) as [tr [df|e]];
    unfold trace, outcome in *; simpl in *; [|done].
  destruct (Hret df eq_refl) as (X & y & model & scores & Hload & Hcv & _).
  destruct (Hcalls X y model Hload) as (Hpassed & Hin & _).
  destruct (to_csv w (results_path bm ds) df) as [[]|what]; simpl; [|done].
  intros _. split.
  - by rewrite n_jobs_passed_app, Hpassed.
  - exists X, y, model, scores. split_and!; [done|done|].
    apply list_elem_of_further, elem_of_app. by left.
Qed.

(** A run that ends normally: the two opening prints, then the loop, which
    ended normally too. *)
Lemma main_ok w parsed :
  outcome (main w parsed) = Ok tt →
  let loop := for_each (run_task w (n_jobs parsed))
                (tasks_of (datasets_of parsed) (benchmarks_of parsed)) in
  outcome loop = Ok tt ∧
  trace (main w parsed)
  = EPrint [Lit ("Running benchmarks: " ++ join_comma (benchmarks_of parsed))]
    :: EPrint [Lit ("Datasets: " ++ join_comma (datasets_of parsed))]
    :: trace loop.
Proof.
  unfold main.
  destruct (validate _) as [[]|e]; [|done].
  unfold trace, outcome.
  by destruct (for_each _ _) as [tr r].
Qed.

Lemma for_each_run_task_calls w nj tasks :
  Forall (fun t => outcome (run_task w nj t) = Ok tt) tasks →
  n_jobs_passed (concat (map (fun t => trace (run_task w nj t)) tasks))
  = replicate (length tasks) nj.
Proof.
  induction 1 as [|[ds bm] tasks Ht _ IH]; [done|].
  cbn [map concat length replicate]. rewrite n_jobs_passed_app, IH.
  by destruct (run_task_calls w nj ds bm Ht) as [-> _].
Qed.

(** Claim C7.  The parsed [n_jobs] goes to [cross_validate], unchanged, and
    nowhere else.  Every call of [cross_validate] logged during a run carries
    it.  The calls are made: whenever the data of a task loads,
    [run_benchmark_cv] calls [cross_validate] exactly once, on the loaded
    data, with the splitter of the script and the parsed [n_jobs], and the
    result of that call decides its outcome; a run that ends normally has made
    one such call per task.  Nothing else depends on [n_jobs]: if the library
    is made to see the parsed value whatever it is passed, then running with
    any other [n_jobs] logs the same events (up to the argument shown in the
    call itself) and ends the same way.  No other call of a run takes a worker
    count: apart from the calls of [cross_validate], a run only prints,
    imports, reads and writes files. *)
Theorem n_jobs_goes_to_cross_validate_only (w : World) (parsed : Args) :
  let tasks := tasks_of (datasets_of parsed) (benchmarks_of parsed) in
  (∀ model X y cv scoring n,
     ECrossValidate model X y cv scoring n ∈ trace (main w parsed) →
     n = n_jobs parsed) ∧
  (∀ n', same_but_n_jobs
           (main (pin_n_jobs (n_jobs parsed) w) (with_n_jobs parsed n'))
           (main w parsed)) ∧
  (∀ ds bm X y model,
     outcome (load_benchmark_data w ds bm None) = Ok (X, y, model) →
     n_jobs_passed (trace (run_benchmark_cv w (n_jobs parsed) bm ds))
     = [n_jobs parsed] ∧
     ECrossValidate model X y benchmark_cv metrics (n_jobs parsed)
       ∈ trace (run_benchmark_cv w (n_jobs parsed) bm ds) ∧
     outcome (run_benchmark_cv w (n_jobs parsed) bm ds)
     = match cross_validate w model X y benchmark_cv metrics (n_jobs parsed) with
       | Returned scores => Ok (results_frame scores)
       | Failed what => Raise (LibraryError what)
       end) ∧
  (outcome (main w parsed) = Ok tt →
   n_jobs_passed (trace (main w parsed))
   = replicate (length tasks) (n_jobs parsed) ∧
   ∀ ds bm, (ds, bm) ∈ tasks →
     ∃ X y model scores,
       outcome (load_benchmark_data w ds bm None) = Ok (X, y, model) ∧
       cross_validate w model X y benchmark_cv metrics (n_jobs parsed)
       = Returned scores ∧
       ECrossValidate model X y benchmark_cv metrics (n_jobs parsed)
         ∈ trace (main w parsed)) ∧
  Forall (fun e => takes_no_worker_count e ∨
                   ∃ model X y cv scoring,
                     e = ECrossValidate model X y cv scoring (n_jobs parsed))
         (trace (main w parsed)).
Proof.
  intros tasks. split_and!.
  - intros model X y cv scoring n Hin.
    pose proof (main_passes_n_jobs w parsed) as Hall.
    rewrite Forall_forall in Hall. exact (Hall _ Hin).
  - intros n'. unfold main.
    change (datasets_of (with_n_jobs parsed n')) with (datasets_of parsed).
    change (benchmarks_of (with_n_jobs parsed n')) with (benchmarks_of parsed).
    repeat (apply same_but_n_jobs_bind; [by split | intros ?]).
    apply same_but_n_jobs_for_each. intros t. apply run_task_pin.
  - intros ds bm X y model. apply run_benchmark_cv_calls.
  - intros Hok. destruct (main_ok _ _ Hok) as [Hloop Hmain].
    fold tasks in Hloop, Hmain. rewrite Hmain.
    destruct (for_each_ok _ _ Hloop) as [Hall Htr]. rewrite Htr. split.
    + by apply for_each_run_task_calls.
    + intros ds bm Hin. rewrite Forall_forall in Hall.
      destruct (run_task_calls w _ ds bm (Hall _ Hin))
        as (_ & X & y & model & scores & Hload & Hcv & Hev).
      exists X, y, model, scores. split_and!; [done|done|].
      do 2 apply list_elem_of_further.
      apply list_elem_of_In, in_concat. exists (trace (run_task w (n_jobs parsed) (ds, bm))).
      split; [|by apply list_elem_of_In].
      apply in_map_iff. exists (ds, bm). split; [done|by apply list_elem_of_In].
  - pose proof (main_passes_n_jobs w parsed) as Hall.
    eapply Forall_impl; [exact Hall|].
    intros [] Hp; simpl in *; try (by left). right. subst. by eexists _, _, _, _, _.
Qed.

Lemma n_jobs_goes_to_cross_validate_only_witness :
  outcome (main sample_world_checking_n_jobs (sample_args_n_jobs 4)) = Ok tt ∧
  n_jobs_passed (trace (main sample_world_checking_n_jobs (sample_args_n_jobs 4)))
  = [4%Z] ∧
  outcome (run_benchmark_cv sample_world_checking_n_jobs 0 "dummy" "chbp")
  = Raise (LibraryError "n_jobs == 0 in Parallel has no meaning").
Proof.
  split; [reflexivity|]. split.
  - destruct (n_jobs_goes_to_cross_validate_only sample_world_checking_n_jobs
                (sample_args_n_jobs 4)) as (_ & _ & _ & Hmain & _).
    destruct (Hmain eq_refl) as [Hpassed _]. exact Hpassed.
  - destruct (n_jobs_goes_to_cross_validate_only sample_world_checking_n_jobs
                (sample_args_n_jobs 0)) as (_ & _ & Hcalls & _).
    destruct (Hcalls "chbp" "dummy" _ _ _ eq_refl) as (_ & _ & Hout).
    exact Hout.
Defined.

(** ** The cross-validation splitter *)

Lemma cross_validate_event w nj bm ds model X y cv scoring n :
  ECrossValidate model X y cv scoring n ∈ trace (run_benchmark_cv w nj bm ds) →
  cv = {| n_splits := 10; shuffle := true; random_state := Some 42%Z |} ∧
  scoring = metrics ∧ n = nj ∧
  outcome (load_benchmark_data w ds bm None) = Ok (X, y, model).
Proof.
  rewrite run_benchmark_cv_steps.
  pose proof (load_benchmark_data_trace w ds bm None) as Hl.
  unfold trace, outcome in *.
  destruct (load_benchmark_data w ds bm None) as [tr [[[X' y'] model']|e]];
    simpl in *.
  - assert (Hnot : ECrossValidate model X y cv scoring n ∉ tr).
    { intros Hin. rewrite Forall_forall in Hl. exact (Hl _ Hin). }
    destruct (cross_validate w model' X' y' _ metrics nj); simpl;
      rewrite elem_of_app, !elem_of_cons, elem_of_nil;
      intros [?|H]; try done; destruct_or?; by simplify_eq.
  - intros Hin. rewrite Forall_forall in Hl. destruct (Hl _ Hin).
Qed.

Section KFoldSplit.
(** [kfold_split cv global_state n_samples]: the (train, test) index sets
    that [cv.split] yields on [n_samples] samples, when numpy's global
    generator is in [global_state]. *)
Variable kfold_split : KFold → Z → nat → list (list nat * list nat).

(** scikit-learn's contract for an integer [random_state]: the split does
    not draw from the global generator. *)
Hypothesis seeded_split :
  ∀ cv seed state1 state2 n_samples,
    random_state cv = Some seed →
    kfold_split cv state1 n_samples = kfold_split cv state2 n_samples.

(** Claim C10.  Every cross-validation of [run_benchmark_cv] is handed
    the same splitter, [KFold(n_splits=10, shuffle=True, random_state=42)],
    whatever the run.  So for a splitter that honours an integer
    [random_state], two runs cut the same number of samples into the same
    train/test partitions, and any per-fold score that is a function of
    the partition comes out the same, fold by fold. *)
Theorem cv_split_is_deterministic
    (w1 w2 : World) (nj1 nj2 : Z) (bm1 ds1 bm2 ds2 : string)
    model1 X1 y1 cv1 scoring1 n1 model2 X2 y2 cv2 scoring2 n2 :
  ECrossValidate model1 X1 y1 cv1 scoring1 n1
    ∈ trace (run_benchmark_cv w1 nj1 bm1 ds1) →
  ECrossValidate model2 X2 y2 cv2 scoring2 n2
    ∈ trace (run_benchmark_cv w2 nj2 bm2 ds2) →
  cv1 = {| n_splits := 10; shuffle := true; random_state := Some 42%Z |} ∧
  cv2 = cv1 ∧
  ∀ state1 state2 n_samples,
    kfold_split cv1 state1 n_samples = kfold_split cv2 state2 n_samples ∧
    ∀ (Score : Type) (fold_score : list nat * list nat → Score),
      map fold_score (kfold_split cv1 state1 n_samples)
      = map fold_score (kfold_split cv2 state2 n_samples).
Proof.
  intros (-> & _)%cross_validate_event (-> & _)%cross_validate_event.
  split_and!; [done..|]. intros state1 state2 n_samples.
  assert (Hsame : kfold_split
                    {| n_splits := 10; shuffle := true; random_state := Some 42%Z |}
                    state1 n_samples
                  = kfold_split
                    {| n_splits := 10; shuffle := true; random_state := Some 42%Z |}
                    state2 n_samples)
    by (by apply (seeded_split _ 42%Z)).
  split; [exact Hsame|]. intros Score fold_score. by rewrite Hsame.
Qed.
End KFoldSplit.

Lemma sample_kfold_split_seeded cv seed state1 state2 n_samples :
  random_state cv = Some seed →
  sample_kfold_split cv state1 n_samples = sample_kfold_split cv state2 n_samples.
Proof. intros Hseed. unfold sample_kfold_split. by rewrite Hseed. Qed.

Lemma cv_split_is_deterministic_witness :
  let cv := {| n_splits := 10; shuffle := true; random_state := Some 42%Z |} in
  sample_kfold_split cv 7 12 = sample_kfold_split cv 2021 12 ∧
  length (sample_kfold_split cv 7 12) = 10.
Proof.
  intros cv. split; [|reflexivity].
  refine (proj1 (proj2 (proj2
    (cv_split_is_deterministic sample_kfold_split sample_kfold_split_seeded
       sample_world sample_world 1 4 "dummy" "chbp" "handcrafted" "camcan"
       (Some (DummyRegressor "mean")) (Some (XZeros 2 1))
       (Some [25%float; 61%float]) cv metrics 1%Z
       _ _ _ cv metrics 4%Z _ _)) 7%Z 2021%Z 12)).
  - apply (list_elem_of_lookup_2 _ 2). reflexivity.
  - apply (list_elem_of_lookup_2 _ 5). reflexivity.
Defined.

(** ** X_y_model.py: [create_windows_ds] *)

Import X_y_model.

Lemma comprehension_length {A B} (f : A -> result B) l bs :
  comprehension f l = Ok bs → length bs = length l.
Proof.
  revert bs. induction l as [|a l IH]; intros bs; simpl.
  - by intros [= <-].
  - destruct (f a); [|done]. destruct (comprehension f l); [|done].
    intros [= <-]. simpl. f_equal. by apply IH.
Qed.

Lemma len_set_one values : len_set values = 1 ↔ ∃ v, shared_by values v.
Proof.
  unfold len_set, shared_by. split.
  - intros (v & Hv)%size_1_elem_of. exists v. intros x.
    by rewrite <- (elem_of_list_to_set (C:=gset Z)), Hv, elem_of_singleton.
  - intros [v Hv].
    assert (Heq : (list_to_set values : gset Z) = {[v]}).
    { apply set_eq. intros x. by rewrite elem_of_list_to_set, Hv, elem_of_singleton. }
    rewrite Heq. apply size_singleton.
Qed.

Lemma shared_by_head values v : shared_by values v → index values 0 = Ok v.
Proof.
  intros Hv. destruct values as [|x values].
  - destruct (Hv v) as [_ H]. specialize (H eq_refl). by apply elem_of_nil in H.
  - unfold index; simpl. f_equal. apply Hv. left.
Qed.

Lemma insert_ages_ok (epochs : list Epochs) (ages : list Z) (i : nat) :
  (length epochs + i ≤ length ages)%nat →
  insert_ages epochs ages i = Ok (zip_with with_age epochs (drop i ages)).
Proof.
  revert i. induction epochs as [|e epochs IH]; intros i Hlen; simpl in *.
  - done.
  - destruct (ages !! i) as [age|] eqn:Hage.
    2:{ apply lookup_ge_None in Hage. lia. }
    unfold index. rewrite Hage. simpl. rewrite IH by lia. simpl.
    by rewrite (drop_S _ _ _ Hage).
Qed.

Lemma map_n_times_with_age epochs ages :
  length epochs = length ages →
  map n_times (zip_with with_age epochs ages) = map n_times epochs.
Proof.
  revert ages. induction epochs as [|e epochs IH]; intros [|age ages] Hlen;
    simpl in *; try done. f_equal. apply IH. lia.
Qed.

Lemma map_n_chans_with_age epochs ages :
  length epochs = length ages →
  map n_chans (zip_with with_age epochs ages) = map n_chans epochs.
Proof.
  revert ages. induction epochs as [|e epochs IH]; intros [|age ages] Hlen;
    simpl in *; try done. f_equal. apply IH. lia.
Qed.

(** [create_windows_ds] once the files are read: the three assertions, then
    the dataset. *)
Lemma create_windows_ds_steps lib fnames ages epochs :
  comprehension (fun fname => of_io (read_epochs lib fname)) fnames = Ok epochs →
  create_windows_ds lib fnames ages =
  if decide (length fnames = length ages) then
    if decide (len_set (map n_times epochs) = 1) then
      if decide (len_set (map n_chans epochs) = 1) then
        w0 ← index (map n_times epochs) 0;
        c0 ← index (map n_chans epochs) 0;
        Ok (create_from_mne_epochs (zip_with with_age epochs ages) w0 w0 false,
            w0, c0)
      else Raise AssertionError
    else Raise AssertionError
  else Raise AssertionError.
Proof.
  intros Hread. unfold create_windows_ds. rewrite Hread. simpl.
  rewrite (comprehension_length _ _ _ Hread).
  destruct (decide (length fnames = length ages)) as [Hlen|Hlen].
  2:{ by rewrite (bool_decide_eq_false_2 _ Hlen). }
  rewrite (bool_decide_eq_true_2 _ Hlen). simpl.
  assert (Hlen' : length epochs = length ages)
    by (by rewrite (comprehension_length _ _ _ Hread)).
  rewrite insert_ages_ok by (rewrite Hlen'; lia). simpl. rewrite drop_0.
  rewrite map_n_times_with_age, map_n_chans_with_age by done.
  destruct (decide (len_set (map n_times epochs) = 1)) as [Hw|Hw].
  2:{ by rewrite (bool_decide_eq_false_2 _ Hw). }
  rewrite (bool_decide_eq_true_2 _ Hw). simpl.
  destruct (decide (len_set (map n_chans epochs) = 1)) as [Hc|Hc].
  2:{ by rewrite (bool_decide_eq_false_2 _ Hc). }
  rewrite (bool_decide_eq_true_2 _ Hc). simpl.
  destruct (index (map n_times epochs) 0); simpl; [|done].
  by destruct (index (map n_chans epochs) 0).
Qed.

(** Claim C8.  Once the epochs files are read, [create_windows_ds] asserts
    three things in turn: the files are as many as the ages; one window
    length is shared by all the files; one channel count is shared by all
    the files.  When one of them does not hold the call raises
    [AssertionError].  When all hold it returns the windows dataset built
    from the epochs (the ages written in as event descriptions), with that
    window length and that channel count; and it returns in no other
    case. *)
Theorem create_windows_ds_checks (lib : Lib) (fnames : list string)
    (ages : list Z) (epochs : list Epochs) :
  comprehension (fun fname => of_io (read_epochs lib fname)) fnames = Ok epochs →
  let window_sizes := map n_times epochs in
  let n_channels := map n_chans epochs in
  (length fnames ≠ length ages →
   create_windows_ds lib fnames ages = Raise AssertionError) ∧
  (length fnames = length ages → ¬ (∃ v, shared_by window_sizes v) →
   create_windows_ds lib fnames ages = Raise AssertionError) ∧
  (length fnames = length ages → ¬ (∃ c, shared_by n_channels c) →
   create_windows_ds lib fnames ages = Raise AssertionError) ∧
  (∀ window_size channels,
     length fnames = length ages →
     shared_by window_sizes window_size → shared_by n_channels channels →
     create_windows_ds lib fnames ages
     = Ok (create_from_mne_epochs (zip_with with_age epochs ages)
             window_size window_size false,
           window_size, channels)) ∧
  (∀ windows_ds window_size channels,
     create_windows_ds lib fnames ages = Ok (windows_ds, window_size, channels) →
     length fnames = length ages ∧
     shared_by window_sizes window_size ∧ shared_by n_channels channels).
Proof.
  intros Hread window_sizes n_channels.
  rewrite (create_windows_ds_steps _ _ _ _ Hread).
  fold window_sizes n_channels.
  split_and!.
  - intros Hlen. by rewrite decide_False.
  - intros Hlen Hw. rewrite decide_True by done.
    rewrite decide_False; [done|]. by rewrite len_set_one.
  - intros Hlen Hc. rewrite decide_True by done.
    destruct (decide (len_set window_sizes = 1)); [|done].
    rewrite decide_False; [done|]. by rewrite len_set_one.
  - intros window_size channels Hlen Hw Hc.
    rewrite decide_True by done.
    rewrite decide_True by (rewrite len_set_one; eauto).
    rewrite decide_True by (rewrite len_set_one; eauto).
    by rewrite (shared_by_head _ _ Hw), (shared_by_head _ _ Hc).
  - intros windows_ds window_size channels.
    destruct (decide (length fnames = length ages)) as [Hlen|]; [|done].
    destruct (decide (len_set window_sizes = 1)) as [Hw|]; [|done].
    destruct (decide (len_set n_channels = 1)) as [Hc|]; [|done].
    apply len_set_one in Hw as [v Hv], Hc as [c Hc].
    rewrite (shared_by_head _ _ Hv), (shared_by_head _ _ Hc). simpl.
    by intros [= <- <- <-].
Qed.

Lemma create_windows_ds_checks_witness :
  create_windows_ds sample_lib ["sub-01-epo.fif"; "sub-02-epo.fif"] [25; 61]%Z
  = Ok (create_from_mne_epochs
          [with_age sample_epochs 25; with_age sample_epochs 61] 2000 2000 false,
        2000%Z, 21%Z) ∧
  create_windows_ds sample_lib ["sub-01-epo.fif"; "sub-02-epo.fif"] [25]%Z
  = Raise AssertionError.
Proof.
  pose proof (create_windows_ds_checks sample_lib
                ["sub-01-epo.fif"; "sub-02-epo.fif"] [25; 61]%Z
                [sample_epochs; sample_epochs] eq_refl) as (_ & _ & _ & Hok & _).
  pose proof (create_windows_ds_checks sample_lib
                ["sub-01-epo.fif"; "sub-02-epo.fif"] [25]%Z
                [sample_epochs; sample_epochs] eq_refl) as (Hlen & _).
  split.
  - apply Hok; [reflexivity|..]; intros x; simpl;
      rewrite !elem_of_cons, elem_of_nil; intuition congruence.
  - apply Hlen. simpl. lia.
Defined.

(** ** X_y_model.py: [create_model_and_data_split] *)

(** The loop over a splitter that yields [folds] and stops: it leaves the
    names bound to fold number [fold] when there is one, and otherwise to
    the last fold seen (the one before the loop, if [folds] is empty). *)
Lemma scan_folds_gen_of_list (folds : list Split) (fold : Z) (i : nat)
    (seen : option Split) :
  scan_folds (gen_of_list folds) fold i seen =
  Ok (if decide (Z.of_nat i ≤ fold < Z.of_nat i + Z.of_nat (length folds))%Z
      then folds !! (Z.to_nat fold - i)%nat
      else match last folds with Some s => Some s | None => seen end).
Proof.
  revert i seen. induction folds as [|s folds IH]; intros i seen; simpl.
  - rewrite decide_False by lia. done.
  - destruct (decide (Z.of_nat i = fold)) as [<-|Hne].
    + rewrite decide_True by lia.
      by replace (Z.to_nat (Z.of_nat i) - i)%nat with 0%nat by lia.
    + rewrite IH. rewrite last_cons.
      destruct (decide (Z.of_nat (S i) ≤ fold
                        < Z.of_nat (S i) + Z.of_nat (length folds))%Z).
      * rewrite decide_True by lia.
        by replace (Z.to_nat fold - i)%nat with (S (Z.to_nat fold - S i)) by lia.
      * rewrite decide_False by lia. by destruct (last folds).
Qed.

(** Claim C9, as the code has it.  Let the model be built, and let the
    splitter yield [folds] and stop.  For a fold index within range, the
    train and validation sets are cut by the split of exactly that fold.
    For a fold index at or above the number of folds, no error is raised as
    long as there is at least one fold: the split of the last fold is used
    instead. *)
Theorem fold_picks_the_split (lib : Lib) (model_name : string)
    (windows_ds : WindowsDataset) (n_channels window_size n_epochs : Z)
    (cv : CV) (folds : list Split) (fold seed batch_size : Z)
    (model : Sequential) (lr : float) (weight_decay : pynum) :
  create_model lib model_name window_size n_channels seed
  = Ok (model, lr, weight_decay) →
  cv (seq 0 (len_ds lib windows_ds)) = gen_of_list folds →
  ∀ train_is valid_is,
    ((0 ≤ fold < Z.of_nat (length folds))%Z ∧
     folds !! Z.to_nat fold = Some (train_is, valid_is)) ∨
    ((Z.of_nat (length folds) ≤ fold)%Z ∧ last folds = Some (train_is, valid_is)) →
    ∃ clf,
      create_model_and_data_split lib model_name windows_ds n_channels
        window_size n_epochs cv fold seed batch_size
      = Ok (split_by windows_ds train_is, None, clf) ∧
      train_split clf = split_by windows_ds valid_is.
Proof.
  intros Hmodel Hcv train_is valid_is Hfold.
  unfold create_model_and_data_split. rewrite Hmodel. simpl.
  rewrite Hcv, scan_folds_gen_of_list. simpl. unfold Split in *.
  destruct Hfold as [[Hin Hs]|[Hout Hs]].
  - rewrite decide_True by lia.
    replace (Z.to_nat fold - 0)%nat with (Z.to_nat fold) by lia.
    rewrite Hs. simpl. by eexists.
  - rewrite decide_False by lia. rewrite Hs. simpl. by eexists.
Qed.

Lemma fold_picks_the_split_witness :
  (∃ clf,
     create_model_and_data_split sample_lib "shallow"
       (create_from_mne_epochs [sample_epochs; sample_epochs] 2000 2000 false)
       21 2000 35 (sample_cv sample_folds) 1 20211011 64
     = Ok (split_by (create_from_mne_epochs [sample_epochs; sample_epochs]
                       2000 2000 false) [0; 1; 4; 5],
           None, clf)) ∧
  (∃ clf,
     create_model_and_data_split sample_lib "shallow"
       (create_from_mne_epochs [sample_epochs; sample_epochs] 2000 2000 false)
       21 2000 35 (sample_cv sample_folds) 7 20211011 64
     = Ok (split_by (create_from_mne_epochs [sample_epochs; sample_epochs]
                       2000 2000 false) [0; 1; 2; 3],
           None, clf)).
Proof.
  split.
  - destruct (fold_picks_the_split sample_lib "shallow"
                (create_from_mne_epochs [sample_epochs; sample_epochs] 2000 2000 false)
                21 2000 35 (sample_cv sample_folds) sample_folds 1 20211011 64
                _ _ _ eq_refl eq_refl [0; 1; 4; 5] [2; 3]) as (clf & Hclf & _).
    + left. split; [simpl; lia | reflexivity].
    + by exists clf.
  - destruct (fold_picks_the_split sample_lib "shallow"
                (create_from_mne_epochs [sample_epochs; sample_epochs] 2000 2000 false)
                21 2000 35 (sample_cv sample_folds) sample_folds 7 20211011 64
                _ _ _ eq_refl eq_refl [0; 1; 2; 3] [4; 5]) as (clf & Hclf & _).
    + right. split; [simpl; lia | reflexivity].
    + by exists clf.
Defined.

(** Claim C9, as stated, fails: with a splitter that yields no fold, every
    fold index is at or above the number of folds, the loop body never
    runs, and the first use of [train_is] after the loop raises
    [UnboundLocalError]. *)
Lemma no_fold_leaves_the_names_unbound :
  (Z.of_nat (length ([] : list Split)) ≤ 0)%Z ∧
  create_model_and_data_split sample_lib "shallow"
    (create_from_mne_epochs [sample_epochs; sample_epochs] 2000 2000 false)
    21 2000 35 (sample_cv []) 0 20211011 64
  = Raise (UnboundLocalError "train_is").
Proof. split; [simpl; lia | reflexivity]. Qed.

(** ** Runs on the sample data *)

(** A run of one task, from validation to the written table. *)
Example main_dummy_on_chbp :
  main sample_world (sample_args (Some ["chbp"]) (Some ["dummy"]))
  = ([EPrint [Lit "Running benchmarks: dummy"];
      EPrint [Lit "Datasets: chbp"];
      EPrint [Lit "Now running 'dummy' on 'chbp' data"];
      EImport "config_chbp_eeg";
      EReadCsv "/data/bids/participants.tsv";
      ECrossValidate (Some (DummyRegressor "mean")) (Some (XZeros 2 1))
        (Some [25; 61]%float)
        {| n_splits := 10; shuffle := true; random_state := Some 42%Z |}
        ["neg_mean_absolute_error"; "r2"] 1;
      EPrint [Lit "MAE(dummy, chbp) = "; MeanOf [8; 7.5]%float];
      EPrint [Lit "r2(dummy, chbp) = "; MeanOf [0.5; 0.25]%float];
      EToCsv "./results/benchmark-dummy_dataset-chbp.csv"
        [("MAE", [8; 7.5]%float); ("r2", [0.5; 0.25]%float);
         ("fit_time", [0.5; 0.25]%float);
         ("score_time", [0.125; 0.125]%float)]],
     Ok tt).
Proof. reflexivity. Qed.

(** A run without a selection stops at its third task, after two tables. *)
Example main_default_stops_at_filterbank_source :
  outcome (main sample_world (sample_args None None))
  = Raise (KeyError "frequency_bands") ∧
  map fst (written (trace (main sample_world (sample_args None None))))
  = ["./results/benchmark-dummy_dataset-chbp.csv";
     "./results/benchmark-filterbank-riemann_dataset-chbp.csv"].
Proof. split; reflexivity. Qed.

(** The default condition: 'pooled' for 'chbp' and 'lemon', 'rest' for the
    other datasets. *)
Example default_condition_in_the_log_name :
  trace (load_benchmark_data sample_world "lemon" "handcrafted" None)
  = [EImport "config_lemon_eeg"; EReadCsv "/data/bids/participants.tsv";
     EReadCsv "/data/derivatives/feature_handcrafted_pooled-log.csv";
     EPrint [Lit "Found data from 2 subjects"];
     EReadHdf5 "/data/derivatives/features_handcrafted_pooled.h5"] ∧
  trace (load_benchmark_data sample_world "tuab" "handcrafted" None)
  = [EImport "config_tuab"; EReadCsv "/data/bids/participants.tsv";
     EReadCsv "/data/derivatives/feature_handcrafted_rest-log.csv";
     EPrint [Lit "Found data from 2 subjects"];
     EReadHdf5 "/data/derivatives/features_handcrafted_rest.h5"].
Proof. split; reflexivity. Qed.

(** The rank of the Riemannian projection: 65 for 'camcan', one less than
    the number of analysed channels elsewhere. *)
Example riemann_rank :
  (∃ X y names alphas,
     outcome (load_benchmark_data sample_world "camcan" "filterbank-riemann" None)
     = Ok (X, y, Some (Pipeline [FilterBankTransformer names "riemann"
                                   (Some ("auto", 65%Z));
                                 StandardScaler; alphas]))) ∧
  (∃ X y names alphas,
     outcome (load_benchmark_data sample_world "chbp" "filterbank-riemann" None)
     = Ok (X, y, Some (Pipeline [FilterBankTransformer names "riemann"
                                   (Some ("auto", 2%Z));
                                 StandardScaler; alphas]))).
Proof. split; by eexists _, _, _, _. Qed.

(** ** X_y_model.py: [create_model] and [get_X_y_model] *)

Lemma create_model_unknown_name lib model_name window_size n_channels seed :
  set_random_seeds lib seed (cuda_is_available lib) = Returned tt →
  model_name ≠ "shallow" → model_name ≠ "deep" →
  create_model lib model_name window_size n_channels seed = Raise AssertionError.
Proof.
  intros Hseed Hs Hd. unfold create_model. rewrite Hseed. simpl.
  rewrite decide_False by done. by rewrite (bool_decide_eq_false_2 _ Hd).
Qed.

Lemma create_model_has_no_softmax lib model_name window_size n_channels seed
    model lr weight_decay name layer :
  create_model lib model_name window_size n_channels seed
  = Ok (model, lr, weight_decay) →
  (name, layer) ∈ children model → contains "softmax" name = false.
Proof.
  unfold create_model.
  destruct (set_random_seeds lib seed _) as [[]|]; simpl; [|done].
  destruct (decide (model_name = "shallow")); simpl.
  - destruct (named_children lib _) as [layers|]; simpl; [|done].
    intros [= <- _ _]; simpl. rewrite list_elem_of_filter; simpl.
    intros [H _]. by destruct (contains "softmax" name).
  - destruct (bool_decide (model_name = "deep")); simpl; [|done].
    destruct (named_children lib _) as [layers|]; simpl; [|done].
    intros [= <- _ _]; simpl. rewrite list_elem_of_filter; simpl.
    intros [H _]. by destruct (contains "softmax" name).
Qed.

Example create_model_shallow :
  create_model sample_lib "shallow" 2000 21 20211011
  = Ok ({| children :=
             [("ensuredims", NnModule "Ensure4d"); ("conv_time", NnModule "Conv2d");
              ("conv_classifier", NnModule "Conv2d");
              ("squeeze", NnModule "Expression")];
           on_cuda := false |},
        PrimFloat.mul 0.0625 0.01, PyInt 0).
Proof. reflexivity. Qed.

(** [get_X_y_model] hands the window length on as [n_channels] and the
    channel count as [window_size]. *)
Lemma get_X_y_model_swaps_the_sizes lib fnames model_name age cv fold n_epochs
    batch_size seed windows_ds window_length channels :
  create_windows_ds lib fnames age = Ok (windows_ds, window_length, channels) →
  get_X_y_model lib fnames model_name age cv fold n_epochs batch_size seed
  = create_model_and_data_split lib model_name windows_ds window_length channels
      n_epochs cv fold seed batch_size.
Proof. intros H. unfold get_X_y_model. by rewrite H. Qed.

(** A negative fold index never matches either: the last fold is used. *)
Example negative_fold_uses_the_last_split :
  scan_folds (gen_of_list sample_folds) (-1) 0 None = Ok (Some ([0; 1; 2; 3], [4; 5])).
Proof. reflexivity. Qed.

(** The loop stops at the fold asked for: what the splitter would do on a
    later fold is not seen. *)
Example later_failure_is_not_reached :
  scan_folds (GYield ([1], [0]) (GRaise "cannot split")) 0 0 None
  = Ok (Some ([1], [0])) ∧
  scan_folds (GYield ([1], [0]) (GRaise "cannot split")) 1 0 None
  = Raise (LibraryError "cannot split").
Proof. split; reflexivity. Qed.

(** ** Further properties of [load_benchmark_data] *)

Lemma load_rejects_unknown_dataset w ds bm c :
  (ds ∉ DATASETS) →
  load_benchmark_data w ds bm c
  = ([], Raise (ValueError ("We don't know the dataset '" ++ ds
                            ++ "' you requested."))).
Proof.
  intros Hds. apply config_map_None in Hds.
  unfold load_benchmark_data. by rewrite Hds.
Qed.

(** Property X1.  [load_benchmark_data] turns down exactly the dataset
    names outside [DATASETS].  For such a name it raises the [ValueError] of
    its first lines before it imports or reads anything.  For a name in
    [DATASETS] it gets past that check: the first thing it does is to import
    the configuration module that [config_map] gives for the dataset.  So a
    call that raises with nothing logged was turned down for its dataset
    name. *)
Theorem load_unknown_dataset (w : World) (ds bm : string) (c : option string) :
  ((ds ∉ DATASETS) →
   load_benchmark_data w ds bm c
   = ([], Raise (ValueError ("We don't know the dataset '" ++ ds
                             ++ "' you requested.")))) ∧
  (ds ∈ DATASETS →
   ∃ config_name rest,
     config_map !! ds = Some config_name ∧
     trace (load_benchmark_data w ds bm c) = EImport config_name :: rest) ∧
  (∀ e, load_benchmark_data w ds bm c = ([], Raise e) →
        (ds ∉ DATASETS) ∧
        e = ValueError ("We don't know the dataset '" ++ ds ++ "' you requested.")).
Proof.
  assert (Hknown : ds ∈ DATASETS →
            ∃ config_name rest,
              config_map !! ds = Some config_name ∧
              trace (load_benchmark_data w ds bm c) = EImport config_name :: rest).
  { intros Hds. destruct (config_map !! ds) as [config_name|] eqn:Hcfg.
    2:{ by apply config_map_None in Hcfg. }
    unfold load_benchmark_data. rewrite Hcfg.
    destruct (import_module w config_name) as [cfg|what];
      unfold call, mbind, M_bind, trace; simpl.
    - match goal with |- context [let '(tr', r) := ?x in _] => destruct x end.
      by eexists config_name, _.
    - by eexists config_name, _. }
  split_and!; [apply load_rejects_unknown_dataset | exact Hknown |].
  intros e Hrun. destruct (decide (ds ∈ DATASETS)) as [Hds|Hds].
  - destruct (Hknown Hds) as (config_name & rest & _ & Htr).
    by rewrite Hrun in Htr.
  - rewrite (load_rejects_unknown_dataset _ _ _ _ Hds) in Hrun.
    by injection Hrun as <-.
Qed.

Lemma load_unknown_dataset_witness :
  load_benchmark_data sample_world "hcp" "dummy" None
  = ([], Raise (ValueError "We don't know the dataset 'hcp' you requested.")) ∧
  ∃ config_name rest,
    config_map !! "camcan" = Some config_name ∧
    trace (load_benchmark_data sample_world "camcan" "dummy" None)
    = EImport config_name :: rest.
Proof.
  destruct (load_unknown_dataset sample_world "hcp" "dummy" None) as [Hout _].
  destruct (load_unknown_dataset sample_world "camcan" "dummy" None)
    as (_ & Hin & _).
  split.
  - apply Hout. apply (bool_decide_unpack _). vm_compute. reflexivity.
  - apply Hin. apply (bool_decide_unpack _). vm_compute. reflexivity.
Defined.

Lemma bench_config_None bm :
  bench_config !! bm = None ↔
  bm ∉ ["filterbank-riemann"; "filterbank-source"; "handcrafted"].
Proof.
  unfold bench_config. split.
  - intros H Hin.
    repeat (apply elem_of_cons in Hin as [->|Hin]; [vm_compute in H; discriminate|]).
    by apply elem_of_nil in Hin.
  - intros Hnot. rewrite !lookup_insert_ne; [done|..];
      intros <-; apply Hnot; set_solver.
Qed.

(** Property X3.  A benchmark name other than 'dummy' that has no entry in
    [bench_config] is not caught by [load_benchmark_data] itself: once the
    configuration module and the participants file are read, the lookup
    [bench_config[benchmark]] raises [KeyError(benchmark)].  The names given
    in the docstring ('filter_bank', 'hand_crafted', 'deep') all end this
    way. *)
Theorem load_unknown_benchmark (w : World) (ds bm : string) (c : option string)
    (config_name : string) (cfg : Config) (df : list (string * float)) :
  bm ≠ "dummy" →
  (bm ∉ ["filterbank-riemann"; "filterbank-source"; "handcrafted"]) →
  config_map !! ds = Some config_name →
  import_module w config_name = Returned cfg →
  read_participants w (path_join (bids_root cfg) "participants.tsv") = Returned df →
  load_benchmark_data w ds bm c
  = ([EImport config_name;
      EReadCsv (path_join (bids_root cfg) "participants.tsv")],
     Raise (KeyError bm)).
Proof.
  intros Hdummy Hbm Hds Himport Hread. apply bench_config_None in Hbm.
  unfold load_benchmark_data. rewrite Hds, Hbm.
  unfold call. rewrite Himport. simpl. rewrite Hread. simpl.
  destruct (decide (bm ≠ "dummy")); [reflexivity | done].
Qed.

Lemma load_unknown_benchmark_witness :
  load_benchmark_data sample_world "chbp" "filter_bank" None
  = ([EImport "config_chbp_eeg"; EReadCsv "/data/bids/participants.tsv"],
     Raise (KeyError "filter_bank")) ∧
  load_benchmark_data sample_world "camcan" "hand_crafted" (Some "rest")
  = ([EImport "config_camcan_meg"; EReadCsv "/data/bids/participants.tsv"],
     Raise (KeyError "hand_crafted")).
Proof.
  split.
  - apply (load_unknown_benchmark sample_world "chbp" "filter_bank" None
             "config_chbp_eeg" sample_config
             [("sub-01", 25%float); ("sub-02", 61%float)]);
      try reflexivity; apply (bool_decide_unpack _); vm_compute; reflexivity.
  - apply (load_unknown_benchmark sample_world "camcan" "hand_crafted" (Some "rest")
             "config_camcan_meg" sample_config
             [("sub-01", 25%float); ("sub-02", 61%float)]);
      try reflexivity; apply (bool_decide_unpack _); vm_compute; reflexivity.
Defined.

(** Property X2.  [load_benchmark_data] never hands back the [None]s that
    [X, y, model] start out with.  Whenever it returns, the benchmark is
    'dummy', 'filterbank-riemann' or 'handcrafted', the dataset is a known
    one, and the features, the ages and the model are all there: the closing
    [return] is not reached with a name that none of the branches handles. *)
Theorem load_returns_everything (w : World) (ds bm : string) (c : option string)
    (tr : list event) (X : option XData) (y : option (list float))
    (model : option Estimator) :
  load_benchmark_data w ds bm c = (tr, Ok (X, y, model)) →
  (bm = "dummy" ∨ bm = "filterbank-riemann" ∨ bm = "handcrafted") ∧
  ds ∈ DATASETS ∧ is_Some X ∧ is_Some y ∧ is_Some model.
Proof.
  intros Hload.
  assert (Hds : ds ∈ DATASETS).
  { destruct (decide (ds ∈ DATASETS)) as [|Hds]; [done|].
    rewrite (load_rejects_unknown_dataset w ds bm c Hds) in Hload. discriminate. }
  assert (Hbm : bm = "dummy" ∨ bm = "filterbank-riemann" ∨ bm = "handcrafted").
  { destruct (decide (bm = "dummy")) as [|Hdummy]; [by left|].
    destruct (decide (bm = "filterbank-source")) as [->|Hsource].
    { destruct (load_filterbank_source_raises w ds c) as [e He].
      rewrite Hload in He. discriminate. }
    destruct (bench_config !! bm) as [entry|] eqn:Hentry.
    - assert (Hin : bm ∈ ["filterbank-riemann"; "filterbank-source"; "handcrafted"]).
      { destruct (decide (bm ∈ ["filterbank-riemann"; "filterbank-source";
                                "handcrafted"])) as [|Hout]; [done|].
        apply bench_config_None in Hout. congruence. }
      rewrite !elem_of_cons, elem_of_nil in Hin.
      destruct Hin as [-> | [-> | [-> | []]]]; auto. done.
    - exfalso. revert Hload. unfold load_benchmark_data.
      destruct (config_map !! ds) as [config_name|]; [|done].
      rewrite Hentry. unfold call.
      destruct (import_module w config_name); simpl; [|done].
      destruct (read_participants w _); simpl; [|done].
      by destruct (decide (bm ≠ "dummy")). }
  split; [exact Hbm|]. split; [exact Hds|].
  assert (Hin : bm ∈ BENCHMARKS ∧ bm ≠ "filterbank-source").
  { destruct Hbm as [-> | [-> | ->]];
      (split; [apply (bool_decide_unpack _); vm_compute; reflexivity | done]). }
  by apply (load_returns_a_model w ds bm c tr); [apply Hin..|].
Qed.

Lemma load_returns_everything_witness :
  ∃ tr X y model,
    load_benchmark_data sample_world "tuab" "handcrafted" None
    = (tr, Ok (Some X, Some y, Some model)).
Proof.
  destruct (load_benchmark_data sample_world "tuab" "handcrafted" None)
    as [tr [[[X y] model]|e]] eqn:Hload; [|vm_compute in Hload; discriminate].
  destruct (load_returns_everything _ _ _ _ _ _ _ _ Hload)
    as (_ & _ & [X' ->] & [y' ->] & [model' ->]).
  by exists tr, X', y', model'.
Defined.

Lemma comprehension_Forall2 {A B} (f : A -> result B) l bs :
  comprehension f l = Ok bs → Forall2 (fun a b => f a = Ok b) l bs.
Proof.
  revert bs. induction l as [|a l IH]; intros bs; simpl.
  - intros [= <-]. constructor.
  - destruct (f a) as [b|] eqn:Ha; [|done].
    destruct (comprehension f l) as [bs'|]; [|done].
    intros [= <-]. constructor; [done | by apply IH].
Qed.

(** What [loc] keeps: rows of the participants table whose label is among
    those asked for, and at least one row for each label asked for. *)
Lemma loc_rows df good subjects :
  loc df good = Ok subjects →
  Forall (fun s => s ∈ df ∧ s.1 ∈ good) subjects ∧
  Forall (fun g => g ∈ map fst subjects) good.
Proof.
  unfold loc.
  destruct (comprehension _ good) as [groups|] eqn:Hgroups; simpl; [|done].
  intros [= <-]. apply comprehension_Forall2 in Hgroups.
  induction Hgroups as [|g group good groups Hgroup _ [IH1 IH2]]; simpl.
  - split; constructor.
  - assert (Hfilter : filter (fun row : string * float => row.1 = g) df = group
                      ∧ group ≠ []).
    { destruct (filter _ df) as [|row rows]; [done|].
      by injection Hgroup as <-. }
    destruct Hfilter as [Hfilter Hne]. split.
    + apply Forall_app. split.
      * apply Forall_forall. intros s Hs. rewrite <- Hfilter in Hs.
        apply list_elem_of_filter in Hs as [<- Hs]. split; [done | left].
      * eapply Forall_impl; [exact IH1|]. intros s [? ?]. split; [done | by right].
    + constructor.
      * destruct group as [|s group]; [done|].
        assert (Hs : s ∈ filter (fun row : string * float => row.1 = g) df)
          by (rewrite Hfilter; left).
        apply list_elem_of_filter in Hs as [<- _].
        rewrite map_app. apply elem_of_app. left. simpl. left.
      * eapply Forall_impl; [exact IH2|]. intros g' Hg'.
        rewrite map_app. apply elem_of_app. by right.
Qed.

(** Property X4.  With 'handcrafted', features and ages stay aligned.
    Whenever loading returns, the kept subjects are the rows that [.loc]
    takes from the participants file for the subjects marked OK in the
    processing log; [y] holds their ages, in that order, and [X] has one row
    per kept subject, in the same order, row [i] being the 'feats' entry
    that the feature file holds for the subject kept at position [i]. *)
Theorem handcrafted_rows_match_ages (w : World) (ds : string) (c : option string)
    (tr : list event) (X : option XData) (y : option (list float))
    (model : option Estimator) :
  load_benchmark_data w ds "handcrafted" c = (tr, Ok (X, y, model)) →
  ∃ config_name cfg df good subjects features rows,
    config_map !! ds = Some config_name ∧
    import_module w config_name = Returned cfg ∧
    read_participants w (path_join (bids_root cfg) "participants.tsv")
    = Returned df ∧
    read_ok_subjects w
      (path_join (deriv_root cfg)
         ("feature_handcrafted_" ++ condition_or_default ds c ++ "-log.csv"))
    = Returned good ∧
    read_hdf5 w
      (path_join (deriv_root cfg)
         ("features_handcrafted_" ++ condition_or_default ds c ++ ".h5"))
    = Returned features ∧
    loc df good = Ok subjects ∧
    Forall (fun s => s ∈ df ∧ s.1 ∈ good) subjects ∧
    Forall (fun g => g ∈ map fst subjects) good ∧
    y = Some (map snd subjects) ∧
    X = Some (XList rows) ∧
    Forall2 (fun (subject : string * float) row =>
               ∃ entry, getitem features subject.1 = Ok entry ∧
                        subscript entry "feats" = Ok row)
            subjects rows.
Proof.
  unfold load_benchmark_data.
  destruct (config_map !! ds) as [config_name|] eqn:Hname; [|done].
  rewrite bench_config_handcrafted. unfold call, lift, print, emit.
  fold (condition_or_default ds c).
  destruct (import_module w config_name) as [cfg|] eqn:Hcfg; simpl; [|done].
  destruct (read_participants w _) as [df|] eqn:Hdf; simpl; [|done].
  destruct (read_ok_subjects w _) as [good|] eqn:Hgood; simpl; [|done].
  destruct (loc df good) as [subjects|] eqn:Hloc; simpl; [|done].
  destruct (read_hdf5 w _) as [features|] eqn:Hh5; simpl; [|done].
  destruct (comprehension _ (index_of subjects)) as [rows|] eqn:Hrows;
    simpl; [|done].
  intros [= <- <- <- <-].
  destruct (loc_rows _ _ _ Hloc) as [Hkept Hall].
  exists config_name, cfg, df, good, subjects, features, rows.
  split_and!; try done.
  apply comprehension_Forall2 in Hrows. unfold index_of in Hrows.
  apply Forall2_fmap_l in Hrows. eapply Forall2_impl; [exact Hrows|].
  intros [sub age] row; simpl.
  destruct (getitem features sub) as [entry|]; [|done].
  intros H. by exists entry.
Qed.

Lemma handcrafted_rows_match_ages_witness :
  load_benchmark_data sample_world_other_order "lemon" "handcrafted" None
  = ([EImport "config_lemon_eeg"; EReadCsv "/data/bids/participants.tsv";
      EReadCsv "/data/derivatives/feature_handcrafted_pooled-log.csv";
      EPrint [Lit "Found data from 2 subjects"];
      EReadHdf5 "/data/derivatives/features_handcrafted_pooled.h5"],
     Ok (Some (XList [PArray (NdArray [1] [2]%float);
                      PArray (NdArray [1] [1]%float)]),
         Some [61; 25]%float,
         Some (Pipeline
                 [FunctionTransformer "aggregate_features" [("func", "mean")];
                  SimpleImputer;
                  GridSearchCV (RandomForestRegressor 1000 42)
                    {| max_depth := [Some 4; Some 6; Some 8; Some 16; Some 32;
                                     None]%Z;
                       max_features := [Some "log2"; Some "sqrt"; None] |}
                    "neg_mean_absolute_error" false 5]))) ∧
  ∃ subjects rows,
    loc [("sub-01", 25%float); ("sub-02", 61%float)] ["sub-02"; "sub-01"]
    = Ok subjects ∧
    [61; 25]%float = map snd subjects ∧
    [PArray (NdArray [1] [2]%float); PArray (NdArray [1] [1]%float)] = rows ∧
    length rows = length subjects.
Proof.
  split; [reflexivity|].
  destruct (handcrafted_rows_match_ages sample_world_other_order "lemon" None
              _ _ _ _ eq_refl)
    as (config_name & cfg & df & good & subjects & features & rows
        & _ & _ & Hdf & Hgood & _ & Hloc & _ & _ & Hy & HX & Hrows).
  injection Hdf as <-. injection Hgood as <-.
  injection Hy as Hy. injection HX as HX.
  exists subjects, rows. split_and!; try done.
  symmetry. exact (Forall2_length _ _ _ Hrows).
Defined.

(** Property X5.  The 'dummy' benchmark looks at the participants file
    only: it reads no processing log and no feature file, so no subject is
    filtered out and the condition plays no part.  [y] holds the age of every
    participant and [X] is a column of zeros of the same length. *)
Theorem dummy_keeps_every_participant (w : World) (ds : string)
    (c : option string) (config_name : string) (cfg : Config)
    (df : list (string * float)) :
  config_map !! ds = Some config_name →
  import_module w config_name = Returned cfg →
  read_participants w (path_join (bids_root cfg) "participants.tsv") = Returned df →
  load_benchmark_data w ds "dummy" c
  = ([EImport config_name;
      EReadCsv (path_join (bids_root cfg) "participants.tsv")],
     Ok (Some (XZeros (length df) 1), Some (map snd df),
         Some (DummyRegressor "mean"))).
Proof.
  intros Hds Himport Hread. unfold load_benchmark_data.
  rewrite Hds. unfold call. rewrite Himport. simpl. rewrite Hread. simpl.
  unfold age_values. by rewrite length_map.
Qed.

Lemma dummy_keeps_every_participant_witness :
  load_benchmark_data sample_world "tuab" "dummy" (Some "eyes-closed")
  = ([EImport "config_tuab"; EReadCsv "/data/bids/participants.tsv"],
     Ok (Some (XZeros 2 1), Some [25; 61]%float, Some (DummyRegressor "mean"))).
Proof.
  apply (dummy_keeps_every_participant sample_world "tuab" (Some "eyes-closed")
           "config_tuab" sample_config
           [("sub-01", 25%float); ("sub-02", 61%float)]); reflexivity.
Defined.

(** ** Further properties of the script *)

(** Property X6.  Two recognized tasks never share a results file: if the
    paths built for two recognized (dataset, benchmark) pairs are equal, the
    pairs are equal.  So within a run a table is overwritten only when the
    same pair is requested twice. *)
Theorem results_path_tells_tasks_apart (t1 t2 : string * string) :
  recognized t1 → recognized t2 →
  results_path t1.2 t1.1 = results_path t2.2 t2.1 → t1 = t2.
Proof.
  destruct t1 as [d1 b1], t2 as [d2 b2]. unfold recognized, DATASETS, BENCHMARKS.
  simpl. rewrite !elem_of_cons, !elem_of_nil.
  intros [Hd1 Hb1] [Hd2 Hb2].
  destruct Hd1 as [-> | [-> | [-> | [-> | []]]]];
    destruct Hb1 as [-> | [-> | [-> | [-> | []]]]];
    destruct Hd2 as [-> | [-> | [-> | [-> | []]]]];
    destruct Hb2 as [-> | [-> | [-> | [-> | []]]]];
    first [reflexivity | (intros H; vm_compute in H; discriminate H)].
Qed.

Lemma results_path_tells_tasks_apart_witness :
  results_path "dummy" "chbp" = "./results/benchmark-dummy_dataset-chbp.csv" ∧
  (results_path "dummy" "chbp" = results_path "handcrafted" "chbp" →
   ("chbp", "dummy") = ("chbp", "handcrafted")).
Proof.
  split; [reflexivity|].
  apply (results_path_tells_tasks_apart ("chbp", "dummy") ("chbp", "handcrafted"));
    apply (bool_decide_unpack _); vm_compute; reflexivity.
Defined.

(** Property X7.  Nothing isolates one task from the next.  Once validation
    has passed, a run that raises does so in the first task that fails: the
    tasks before it were carried through, the exception is the one of the
    failing task, and the trace ends with the events of that task: no later
    task is started.  A run that ends normally has carried every task
    through. *)
Theorem main_stops_at_first_failure (w : World) (parsed : Args) :
  let tasks := tasks_of (datasets_of parsed) (benchmarks_of parsed) in
  let run := run_task w (n_jobs parsed) in
  validate tasks = Ok tt →
  (∀ e, outcome (main w parsed) = Raise e →
        ∃ completed failing rest,
          tasks = (completed ++ failing :: rest)%list ∧
          Forall (fun t => outcome (run t) = Ok tt) completed ∧
          outcome (run failing) = Raise e ∧
          trace (main w parsed)
          = (header parsed ++ concat (map (fun t => trace (run t)) completed)
             ++ trace (run failing))%list) ∧
  (outcome (main w parsed) = Ok tt →
   Forall (fun t => outcome (run t) = Ok tt) tasks ∧
   trace (main w parsed)
   = (header parsed ++ concat (map (fun t => trace (run t)) tasks))%list).
Proof.
  intros tasks run Hvalid. unfold main. fold tasks run. rewrite Hvalid.
  unfold lift, print, emit, mbind, M_bind, header, trace, outcome; simpl.
  pose proof (for_each_ok run tasks) as Hok.
  pose proof (for_each_raise run tasks) as Hraise.
  unfold trace, outcome in Hok, Hraise.
  destruct (for_each run tasks) as [tr r]; simpl in *. split.
  - intros e ->.
    destruct (Hraise e eq_refl) as (completed & failing & rest & ? & ? & ? & ->).
    by exists completed, failing, rest.
  - intros ->. destruct (Hok eq_refl) as [Hall ->]. by split.
Qed.

Lemma main_stops_at_first_failure_witness :
  ∃ completed rest,
    tasks_of DATASETS BENCHMARKS
    = (completed ++ ("chbp", "filterbank-source") :: rest)%list ∧
    length completed = 2 ∧ length rest = 13 ∧
    outcome (main sample_world (sample_args None None))
    = Raise (KeyError "frequency_bands").
Proof.
  destruct (main_stops_at_first_failure sample_world (sample_args None None))
    as [Hraise _]; [reflexivity|].
  destruct (Hraise (KeyError "frequency_bands") eq_refl)
    as (completed & failing & rest & Htasks & Hall & Hfail & _).
  exists [("chbp", "dummy"); ("chbp", "filterbank-riemann")],
    (drop 3 (tasks_of DATASETS BENCHMARKS)).
  by split_and!.
Defined.

(** Property X8.  For the non-empty lists that the command line gives
    ([nargs='+']) or the defaults supply, validation passes exactly when
    every requested dataset and every requested benchmark is a recognized
    name. *)
Theorem validate_checks_every_name (datasets benchmarks : list string) :
  datasets ≠ [] → benchmarks ≠ [] →
  (validate (tasks_of datasets benchmarks) = Ok tt ↔
   Forall (fun d => d ∈ DATASETS) datasets ∧
   Forall (fun b => b ∈ BENCHMARKS) benchmarks).
Proof.
  intros Hd Hb. rewrite validate_ok, !Forall_forall. split.
  - intros Hall. split.
    + intros d Hin. destruct benchmarks as [|b ?]; [done|].
      apply (Hall (d, b)), elem_of_tasks_of. split; [done | left].
    + intros b Hin. destruct datasets as [|d ?]; [done|].
      apply (Hall (d, b)), elem_of_tasks_of. split; [left | done].
  - intros [Hds Hbs] [d b] [??]%elem_of_tasks_of. split; [by apply Hds | by apply Hbs].
Qed.

Lemma validate_checks_every_name_witness :
  validate (tasks_of ["lemon"; "tuab"] ["handcrafted"]) = Ok tt.
Proof.
  apply (validate_checks_every_name ["lemon"; "tuab"] ["handcrafted"]);
    [done | done |].
  split; apply (bool_decide_unpack _); vm_compute; reflexivity.
Defined.

(** ** The filter-bank pipeline *)

Lemma band_columns_names w arr bands ii cols :
  band_columns w arr ii bands = Ok cols → map fst cols = bands.
Proof.
  revert ii cols. induction bands as [|band bands IH]; intros ii cols; simpl.
  - by intros [= <-].
  - destruct (slice_axis1 w arr ii) as [col|]; simpl; [|done].
    destruct (band_columns w arr (S ii) bands) as [rest|] eqn:Hrest; simpl;
      [|done].
    intros [= <-]. simpl. f_equal. by apply (IH (S ii)).
Qed.

(** Property X18.  With 'filterbank-riemann', the data frame and the
    transformer agree on the bands: whenever loading returns, [X] has one
    column per frequency band of the configuration, in its order ('low' to
    'beta_high'), the filter-bank transformer is built for exactly these
    column names, and its projection keeps 65 components for 'camcan' and
    one less than the number of analysed channels for the other datasets. *)
Theorem riemann_columns_match_transformer (w : World) (ds : string)
    (c : option string) (tr : list event) (X : option XData)
    (y : option (list float)) (model : option Estimator) :
  load_benchmark_data w ds "filterbank-riemann" c = (tr, Ok (X, y, model)) →
  ∃ columns config_name cfg,
    config_map !! ds = Some config_name ∧
    import_module w config_name = Returned cfg ∧
    X = Some (XFrame columns) ∧
    map fst columns
    = ["low"; "delta"; "theta"; "alpha"; "beta_low"; "beta_mid"; "beta_high"] ∧
    model = Some (Pipeline
                    [FilterBankTransformer (map fst columns) "riemann"
                       (Some ("auto",
                              if decide (ds = "camcan") then 65%Z
                              else (Z.of_nat (length (analyze_channels cfg)) - 1)%Z));
                     StandardScaler; RidgeCV (-5) 10 100]).
Proof.
  unfold load_benchmark_data.
  destruct (config_map !! ds) as [config_name|]; [|done].
  destruct bench_config_filterbank_riemann as (bands & -> & Hbands).
  unfold call, lift, print, emit.
  destruct (import_module w config_name) as [cfg|] eqn:Hcfg; simpl; [|done].
  destruct (read_participants w _) as [df|]; simpl; [|done].
  destruct (read_ok_subjects w _) as [good|]; simpl; [|done].
  destruct (loc df good) as [subjects|]; simpl; [|done].
  destruct (read_hdf5 w _) as [features|]; simpl; [|done].
  destruct (comprehension _ (index_of subjects)) as [covs|]; simpl; [|done].
  destruct (np_array w covs) as [arr|]; simpl; [|done].
  destruct (band_columns w arr 0 (map fst bands)) as [columns|] eqn:Hcols;
    simpl; [|done].
  intros [= <- <- <- <-]. apply band_columns_names in Hcols.
  exists columns, config_name, cfg. rewrite Hcols, Hbands. by split_and!.
Qed.

Lemma riemann_columns_match_transformer_witness :
  ∃ columns config_name cfg,
    config_map !! "camcan" = Some config_name ∧
    import_module sample_world config_name = Returned cfg ∧
    Some (XFrame (map (fun band => (band, [sample_array; sample_array]))
                    ["low"; "delta"; "theta"; "alpha"; "beta_low"; "beta_mid";
                     "beta_high"]))
    = Some (XFrame columns) ∧
    map fst columns
    = ["low"; "delta"; "theta"; "alpha"; "beta_low"; "beta_mid"; "beta_high"] ∧
    Some (Pipeline
            [FilterBankTransformer
               ["low"; "delta"; "theta"; "alpha"; "beta_low"; "beta_mid";
                "beta_high"] "riemann" (Some ("auto", 65%Z));
             StandardScaler; RidgeCV (-5) 10 100])
    = Some (Pipeline
              [FilterBankTransformer (map fst columns) "riemann"
                 (Some ("auto",
                        if decide ("camcan" = "camcan") then 65%Z
                        else (Z.of_nat (length (analyze_channels cfg)) - 1)%Z));
               StandardScaler; RidgeCV (-5) 10 100]).
Proof.
  exact (riemann_columns_match_transformer sample_world "camcan" None
           _ _ _ _ eq_refl).
Defined.

(** ** Further properties of X_y_model.py *)

(** Property X9.  [create_windows_ds] cannot be called on no file at all:
    with an empty list of file names it raises [AssertionError] whatever the
    ages are (the length check fails when ages are given, and otherwise the
    set of window lengths is empty, not a singleton). *)
Theorem create_windows_ds_needs_a_file (lib : Lib) (ages : list Z) :
  create_windows_ds lib [] ages = Raise AssertionError.
Proof.
  rewrite (create_windows_ds_steps lib [] ages [] eq_refl).
  destruct (decide (length ([] : list string) = length ages)); [|done].
  by rewrite decide_False.
Qed.

Lemma comprehension_first_failure {A B} (f : A -> result B) before a after e :
  Forall (fun x => ∃ b, f x = Ok b) before → f a = Raise e →
  comprehension f (before ++ a :: after) = Raise e.
Proof.
  intros Hbefore Ha. induction Hbefore as [|x before [b Hx] _ IH]; simpl.
  - by rewrite Ha.
  - by rewrite Hx, IH.
Qed.

(** Property X10.  The files are read before anything is checked.  If an
    epochs file cannot be read (and those listed before it can),
    [create_windows_ds] fails with the error of that read, whether or not
    the ages match the files in number. *)
Theorem create_windows_ds_unreadable_file (lib : Lib)
    (before : list string) (fname : string) (after : list string)
    (ages : list Z) (what : string) :
  Forall (fun f => ∃ e, read_epochs lib f = Returned e) before →
  read_epochs lib fname = Failed what →
  create_windows_ds lib (before ++ fname :: after) ages
  = Raise (LibraryError what).
Proof.
  intros Hbefore Hfail. unfold create_windows_ds.
  rewrite (comprehension_first_failure _ before fname after (LibraryError what));
    [done| |by rewrite Hfail].
  eapply Forall_impl; [exact Hbefore|]. intros f [e ->]. by exists e.
Qed.

Lemma create_windows_ds_unreadable_file_witness :
  create_windows_ds sample_lib_missing_file
    ["sub-01-epo.fif"; "sub-02-epo.fif"; "sub-03-epo.fif"] [25]%Z
  = Raise (LibraryError "No such file").
Proof.
  apply (create_windows_ds_unreadable_file sample_lib_missing_file
           ["sub-01-epo.fif"] "sub-02-epo.fif" ["sub-03-epo.fif"] [25]%Z
           "No such file"); [|reflexivity].
  constructor; [by exists sample_epochs | constructor].
Defined.

(** Property X11.  [create_model] knows two model names.  It returns only
    for 'shallow' and 'deep' (and only when the seeding has gone through).
    With any other name, once the seeds are set the assertion of the [else]
    branch fails, before braindecode is asked for a network, and
    [create_model_and_data_split] fails the same way, before the splitter is
    consulted.  The seeding comes before the assertion: if
    [set_random_seeds] turns the seed down, its error is the one raised. *)
Theorem create_model_knows_two_names (lib : Lib) (model_name : string)
    (window_size n_channels seed : Z) :
  (∀ built, create_model lib model_name window_size n_channels seed = Ok built →
            (model_name = "shallow" ∨ model_name = "deep") ∧
            set_random_seeds lib seed (cuda_is_available lib) = Returned tt) ∧
  (model_name ≠ "shallow" → model_name ≠ "deep" →
   create_model lib model_name window_size n_channels seed
   = unknown_name_outcome lib seed ∧
   ∀ windows_ds n_epochs cv fold batch_size,
     create_model_and_data_split lib model_name windows_ds n_channels
       window_size n_epochs cv fold seed batch_size
     = unknown_name_outcome lib seed).
Proof.
  split.
  - intros built. unfold create_model.
    destruct (set_random_seeds lib seed _) as [[]|]; simpl; [|done].
    intros Hbuilt. split; [|done]. revert Hbuilt.
    destruct (decide (model_name = "shallow")); [by left|].
    destruct (decide (model_name = "deep")) as [|Hd]; [by right|].
    by rewrite (bool_decide_eq_false_2 _ Hd).
  - intros Hs Hd.
    assert (Hmodel : create_model lib model_name window_size n_channels seed
                     = unknown_name_outcome lib seed).
    { unfold create_model, unknown_name_outcome.
      destruct (set_random_seeds lib seed _) as [[]|]; simpl; [|done].
      rewrite decide_False by done. by rewrite (bool_decide_eq_false_2 _ Hd). }
    split; [exact Hmodel|]. intros. unfold create_model_and_data_split.
    rewrite Hmodel. unfold unknown_name_outcome.
    by destruct (set_random_seeds lib seed _).
Qed.

Lemma create_model_knows_two_names_witness :
  create_model sample_lib "eegnet" 2000 21 20211011 = Raise AssertionError ∧
  create_model_and_data_split sample_lib "eegnet"
    (create_from_mne_epochs [sample_epochs; sample_epochs] 2000 2000 false)
    21 2000 35 (sample_cv sample_folds) 0 20211011 64
  = Raise AssertionError ∧
  create_model sample_lib "eegnet" 2000 21 (-1)
  = Raise (LibraryError "Seed must be between 0 and 2**32 - 1").
Proof.
  destruct (create_model_knows_two_names sample_lib "eegnet" 2000 21 20211011)
    as [_ Hunknown].
  destruct Hunknown as [Hmodel Hsplit]; [discriminate | discriminate |].
  destruct (create_model_knows_two_names sample_lib "eegnet" 2000 21 (-1))
    as [_ Hturned_down].
  destruct Hturned_down as [Hseed _]; [discriminate | discriminate |].
  split_and!; [exact Hmodel| |exact Hseed].
  exact (Hsplit (create_from_mne_epochs [sample_epochs; sample_epochs]
                   2000 2000 false) 35%Z (sample_cv sample_folds) 0%Z 64%Z).
Defined.

Lemma prefix_spec needle hay :
  String.prefix needle hay = true ↔ ∃ after, hay = needle ++ after.
Proof.
  revert needle. induction hay as [|b hay IH]; intros [|a needle]; simpl.
  - split; [by exists "" | done].
  - split; [done | by intros [after [=]]].
  - split; [by exists (String b hay) | done].
  - destruct (Ascii.ascii_dec a b) as [->|Hne].
    + rewrite IH. split; intros [after H]; exists after; simpl in *;
        [by rewrite H | by injection H].
    + split; [done | intros [after H]; simpl in H; by injection H].
Qed.

Lemma contains_cons needle b hay :
  contains needle (String b hay)
  = String.prefix needle (String b hay) || contains needle hay.
Proof. reflexivity. Qed.

Lemma contains_empty needle : contains needle "" = String.prefix needle "".
Proof. unfold contains. apply orb_false_r. Qed.

Lemma contains_spec needle hay :
  contains needle hay = true ↔ substring_of needle hay.
Proof.
  unfold substring_of. induction hay as [|b hay IH].
  - rewrite contains_empty, prefix_spec. split.
    + intros [after H]. by exists "", after.
    + intros (before & after & H). destruct before; simpl in H.
      * by exists after.
      * discriminate.
  - rewrite contains_cons, orb_true_iff, prefix_spec, IH. split.
    + intros [[after H] | (before & after & H)].
      * by exists "", after.
      * exists (String b before), after. simpl. by rewrite H.
    + intros (before & after & H). destruct before as [|b' before]; simpl in H.
      * left. by exists after.
      * right. injection H as -> H. by exists before, after.
Qed.

(** What [create_model] returns is built from the children braindecode
    lists for the requested network. *)
Lemma create_model_children lib model_name window_size n_channels seed
    model lr weight_decay :
  create_model lib model_name window_size n_channels seed
  = Ok (model, lr, weight_decay) →
  ∃ layers,
    named_children lib (requested_net model_name window_size n_channels)
    = Returned layers ∧
    children model = filter (fun nm => negb (contains "softmax" nm.1)) layers.
Proof.
  unfold create_model, requested_net.
  destruct (set_random_seeds lib seed _) as [[]|]; simpl; [|done].
  destruct (decide (model_name = "shallow")); simpl.
  - destruct (named_children lib _) as [layers|]; simpl; [|done].
    intros [= <- _ _]. by exists layers.
  - destruct (bool_decide (model_name = "deep")); simpl; [|done].
    destruct (named_children lib _) as [layers|]; simpl; [|done].
    intros [= <- _ _]. by exists layers.
Qed.

(** Property X12.  The network [create_model] returns has lost its softmax
    and nothing else: its children are those braindecode lists for the
    requested network, in the same order, without the ones whose name has
    "softmax" as a substring. *)
Theorem create_model_drops_softmax_only (lib : Lib) (model_name : string)
    (window_size n_channels seed : Z) (model : Sequential) (lr : float)
    (weight_decay : pynum) :
  create_model lib model_name window_size n_channels seed
  = Ok (model, lr, weight_decay) →
  ∃ layers,
    named_children lib (requested_net model_name window_size n_channels)
    = Returned layers ∧
    sublist (children model) layers ∧
    ∀ name layer,
      (name, layer) ∈ children model ↔
      (name, layer) ∈ layers ∧ ¬ substring_of "softmax" name.
Proof.
  intros (layers & Hlayers & Hchildren)%create_model_children.
  exists layers. split_and!; [done| |].
  - rewrite Hchildren. apply sublist_filter.
  - intros name layer. rewrite Hchildren, list_elem_of_filter; simpl.
    rewrite <- contains_spec. destruct (contains "softmax" name); simpl.
    + split; [by intros [[] _] | by intros [_ []]].
    + split; [by intros [_ ?] | by intros [? _]].
Qed.

Lemma create_model_drops_softmax_only_witness :
  ∃ layers,
    named_children sample_lib (requested_net "shallow" 2000 21) = Returned layers ∧
    sublist [("ensuredims", NnModule "Ensure4d"); ("conv_time", NnModule "Conv2d");
             ("conv_classifier", NnModule "Conv2d");
             ("squeeze", NnModule "Expression")] layers ∧
    (("softmax", NnModule "LogSoftmax") ∈ layers).
Proof.
  destruct (create_model_drops_softmax_only sample_lib "shallow" 2000 21 20211011
              _ _ _ eq_refl) as (layers & Hlayers & Hsub & _).
  exists layers. split_and!; [exact Hlayers | exact Hsub |].
  vm_compute in Hlayers. injection Hlayers as <-.
  apply (list_elem_of_lookup_2 _ 3). reflexivity.
Defined.

(** The loop over a splitter that yields [folds] and then goes on as
    [rest]: a fold index within [folds] ends the loop there, and [rest] is
    never advanced; any other index hands the loop over to [rest]. *)
Lemma scan_folds_yields_then (folds : list Split) (rest : gen Split)
    (fold : Z) (i : nat) (seen : option Split) :
  scan_folds (yields_then folds rest) fold i seen =
  if decide (Z.of_nat i ≤ fold < Z.of_nat i + Z.of_nat (length folds))%Z
  then Ok (folds !! (Z.to_nat fold - i)%nat)
  else scan_folds rest fold (i + length folds)
         (match last folds with Some s => Some s | None => seen end).
Proof.
  revert i seen. induction folds as [|s folds IH]; intros i seen; simpl.
  - rewrite decide_False by lia. by rewrite Nat.add_0_r.
  - destruct (decide (Z.of_nat i = fold)) as [<-|Hne].
    + rewrite decide_True by lia.
      by replace (Z.to_nat (Z.of_nat i) - i)%nat with 0%nat by lia.
    + rewrite IH, last_cons.
      destruct (decide (Z.of_nat (S i) ≤ fold
                        < Z.of_nat (S i) + Z.of_nat (length folds))%Z).
      * rewrite decide_True by lia.
        by replace (Z.to_nat fold - i)%nat with (S (Z.to_nat fold - S i)) by lia.
      * rewrite decide_False by lia.
        replace (S i + length folds)%nat with (i + S (length folds))%nat by lia.
        by destruct (last folds).
Qed.

(** Property X13.  The fold loop stops at the fold it was asked for.  If
    the splitter yields [folds] and the fold index lies within them, the
    split of that fold is used whatever the splitter would do next (yield
    more, stop, or raise): the splits after the requested one are never
    computed. *)
Theorem later_folds_are_not_computed (lib : Lib) (model_name : string)
    (windows_ds : WindowsDataset) (n_channels window_size n_epochs : Z)
    (cv : CV) (folds : list Split) (rest : gen Split)
    (fold seed batch_size : Z) (model : Sequential) (lr : float)
    (weight_decay : pynum) (train_is valid_is : list nat) :
  create_model lib model_name window_size n_channels seed
  = Ok (model, lr, weight_decay) →
  cv (seq 0 (len_ds lib windows_ds)) = yields_then folds rest →
  (0 ≤ fold < Z.of_nat (length folds))%Z →
  folds !! Z.to_nat fold = Some (train_is, valid_is) →
  ∃ clf,
    create_model_and_data_split lib model_name windows_ds n_channels
      window_size n_epochs cv fold seed batch_size
    = Ok (split_by windows_ds train_is, None, clf) ∧
    train_split clf = split_by windows_ds valid_is.
Proof.
  intros Hmodel Hcv Hin Hs. unfold create_model_and_data_split.
  rewrite Hmodel. simpl. rewrite Hcv, scan_folds_yields_then. simpl.
  unfold Split in *. rewrite decide_True by lia.
  replace (Z.to_nat fold - 0)%nat with (Z.to_nat fold) by lia.
  rewrite Hs. simpl. by eexists.
Qed.

Lemma later_folds_are_not_computed_witness :
  ∃ clf,
    create_model_and_data_split sample_lib "deep"
      (create_from_mne_epochs [sample_epochs; sample_epochs] 2000 2000 false)
      21 2000 35
      (fun _ => yields_then [([2; 3; 4; 5], [0; 1]); ([0; 1; 4; 5], [2; 3])]
                  (GRaise "cannot split"))
      1 20211011 64
    = Ok (split_by (create_from_mne_epochs [sample_epochs; sample_epochs]
                      2000 2000 false) [0; 1; 4; 5],
          None, clf).
Proof.
  destruct (later_folds_are_not_computed sample_lib "deep"
              (create_from_mne_epochs [sample_epochs; sample_epochs] 2000 2000 false)
              21 2000 35
              (fun _ => yields_then [([2; 3; 4; 5], [0; 1]); ([0; 1; 4; 5], [2; 3])]
                          (GRaise "cannot split"))
              [([2; 3; 4; 5], [0; 1]); ([0; 1; 4; 5], [2; 3])]
              (GRaise "cannot split") 1 20211011 64 _ _ _ [0; 1; 4; 5] [2; 3]
              eq_refl eq_refl) as (clf & Hclf & _);
    [simpl; lia | reflexivity |].
  by exists clf.
Defined.

(** Property X17.  A splitter that fails before the requested fold is
    reached makes [create_model_and_data_split] fail with the splitter's
    error: with [KFold] this is what happens at once when there are fewer
    windows than splits.  The same holds for a fold index out of range or
    negative: the loop runs on into the failure. *)
Theorem splitter_failure_is_raised (lib : Lib) (model_name : string)
    (windows_ds : WindowsDataset) (n_channels window_size n_epochs : Z)
    (cv : CV) (folds : list Split) (what : string)
    (fold seed batch_size : Z) (model : Sequential) (lr : float)
    (weight_decay : pynum) :
  create_model lib model_name window_size n_channels seed
  = Ok (model, lr, weight_decay) →
  cv (seq 0 (len_ds lib windows_ds)) = yields_then folds (GRaise what) →
  (fold < 0 ∨ Z.of_nat (length folds) ≤ fold)%Z →
  create_model_and_data_split lib model_name windows_ds n_channels
    window_size n_epochs cv fold seed batch_size
  = Raise (LibraryError what).
Proof.
  intros Hmodel Hcv Hout. unfold create_model_and_data_split.
  rewrite Hmodel. simpl. rewrite Hcv, scan_folds_yields_then.
  by rewrite decide_False by lia.
Qed.

Lemma splitter_failure_is_raised_witness :
  create_model_and_data_split sample_lib "shallow"
    (create_from_mne_epochs [sample_epochs; sample_epochs] 2000 2000 false)
    21 2000 35
    (fun _ => GRaise "Cannot have number of splits greater than the number of samples")
    0 20211011 64
  = Raise (LibraryError
             "Cannot have number of splits greater than the number of samples").
Proof.
  apply (splitter_failure_is_raised sample_lib "shallow" _ 21 2000 35 _ []
           "Cannot have number of splits greater than the number of samples"
           0 20211011 64 _ _ _ eq_refl eq_refl).
  right. simpl. lia.
Defined.

(** Property X14.  A negative fold index is not an index from the end: the
    loop counter never equals it, so every negative index selects the split
    of the last fold (when the splitter yields at least one fold and
    stops). *)
Theorem negative_fold_uses_last_split (lib : Lib) (model_name : string)
    (windows_ds : WindowsDataset) (n_channels window_size n_epochs : Z)
    (cv : CV) (folds : list Split) (fold seed batch_size : Z)
    (model : Sequential) (lr : float) (weight_decay : pynum)
    (train_is valid_is : list nat) :
  create_model lib model_name window_size n_channels seed
  = Ok (model, lr, weight_decay) →
  cv (seq 0 (len_ds lib windows_ds)) = gen_of_list folds →
  (fold < 0)%Z →
  last folds = Some (train_is, valid_is) →
  ∃ clf,
    create_model_and_data_split lib model_name windows_ds n_channels
      window_size n_epochs cv fold seed batch_size
    = Ok (split_by windows_ds train_is, None, clf) ∧
    train_split clf = split_by windows_ds valid_is.
Proof.
  intros Hmodel Hcv Hneg Hlast. unfold create_model_and_data_split.
  rewrite Hmodel. simpl. rewrite Hcv, scan_folds_gen_of_list. simpl.
  unfold Split in *. rewrite decide_False by lia. rewrite Hlast. simpl.
  by eexists.
Qed.

Lemma negative_fold_uses_last_split_witness :
  ∃ clf,
    create_model_and_data_split sample_lib "shallow"
      (create_from_mne_epochs [sample_epochs; sample_epochs] 2000 2000 false)
      21 2000 35 (sample_cv sample_folds) (-2) 20211011 64
    = Ok (split_by (create_from_mne_epochs [sample_epochs; sample_epochs]
                      2000 2000 false) [0; 1; 2; 3],
          None, clf).
Proof.
  destruct (negative_fold_uses_last_split sample_lib "shallow"
              (create_from_mne_epochs [sample_epochs; sample_epochs] 2000 2000 false)
              21 2000 35 (sample_cv sample_folds) sample_folds (-2) 20211011 64
              _ _ _ [0; 1; 2; 3] [4; 5] eq_refl eq_refl) as (clf & Hclf & _);
    [lia | reflexivity |].
  by exists clf.
Defined.

(** Property X15.  [get_X_y_model] unpacks the result of
    [create_windows_ds] as (dataset, channels, window size), while
    [create_windows_ds] returns (dataset, window size, channels).  So the
    network is requested with the common window length as [in_chans] and the
    channel count as [input_window_samples]: whenever [get_X_y_model]
    returns, braindecode was asked for, and delivered, that network. *)
Theorem get_X_y_model_swaps_sizes (lib : Lib) (fnames : list string)
    (model_name : string) (age : list Z) (cv : CV)
    (fold n_epochs batch_size seed : Z) (windows_ds : WindowsDataset)
    (window_length channels : Z)
    (returned : WindowsDataset * option (list float) * EEGRegressor) :
  create_windows_ds lib fnames age = Ok (windows_ds, window_length, channels) →
  get_X_y_model lib fnames model_name age cv fold n_epochs batch_size seed
  = Ok returned →
  ∃ layers,
    (model_name = "shallow" ∧
     named_children lib (ShallowFBCSPNet window_length 1 channels "auto")
     = Returned layers) ∨
    (model_name = "deep" ∧
     named_children lib (Deep4Net window_length 1 channels "auto")
     = Returned layers).
Proof.
  intros Hds. unfold get_X_y_model. rewrite Hds. simpl.
  unfold create_model_and_data_split.
  destruct (create_model lib model_name channels window_length seed)
    as [[[model lr] weight_decay]|] eqn:Hmodel; [|done].
  intros _.
  destruct (create_model_children _ _ _ _ _ _ _ _ Hmodel) as (layers & Hlayers & _).
  exists layers. revert Hmodel Hlayers. unfold create_model, requested_net.
  destruct (set_random_seeds lib seed _) as [[]|]; simpl; [|done].
  destruct (decide (model_name = "shallow")); [by left|].
  destruct (decide (model_name = "deep")) as [|Hd]; [by right|].
  by rewrite (bool_decide_eq_false_2 _ Hd).
Qed.

Lemma get_X_y_model_swaps_sizes_witness :
  ∃ layers,
    ("shallow" = "shallow" ∧
     named_children sample_lib (ShallowFBCSPNet 2000 1 21 "auto") = Returned layers) ∨
    ("shallow" = "deep" ∧
     named_children sample_lib (Deep4Net 2000 1 21 "auto") = Returned layers).
Proof.
  exact (get_X_y_model_swaps_sizes sample_lib
           ["sub-01-epo.fif"; "sub-02-epo.fif"] "shallow" [25; 61]%Z
           (sample_cv sample_folds) 0 35 64 20211011 _ 2000 21 _
           eq_refl eq_refl).
Defined.

(** ** [aggregate_features] *)

(** Property X16.  [aggregate_features] looks its aggregation up inside
    the comprehension over [X].  With a [func] other than 'mean' and
    'median' it raises [KeyError(func)] as soon as [X] has an element; on an
    empty [X] the lookup never happens and the outcome is that of
    [np.vstack] on an empty list. *)
Theorem aggregate_features_unknown_func (np : Numpy) (X : list ndarray)
    (func : string) (axis : Z) :
  func ≠ "mean" → func ≠ "median" →
  aggregate_features np X func axis
  = match X with
    | [] => of_io (vstack np [])
    | _ :: _ => Raise (KeyError func)
    end.
Proof.
  intros Hmean Hmedian. unfold aggregate_features.
  destruct X as [|x X]; simpl; [done|].
  rewrite decide_False by done. by rewrite decide_False by done.
Qed.

Lemma aggregate_features_unknown_func_witness :
  aggregate_features sample_numpy [sample_array] "max" 0 = Raise (KeyError "max") ∧
  aggregate_features sample_numpy [] "max" 0
  = Raise (LibraryError "need at least one array to concatenate").
Proof.
  split.
  - apply (aggregate_features_unknown_func sample_numpy [sample_array] "max" 0);
      discriminate.
  - apply (aggregate_features_unknown_func sample_numpy [] "max" 0); discriminate.
Defined.
